(** * Authentication and session subsystem of the marketplace application

    The repository holds an Express server entry point ([server/index.js])
    followed by three successive bundles of the React client:

    - [TokenApp]  : first bundle of [server/index.js]; the provider keeps the
      token in React state and under the storage key ["authToken"];
    - [PersistApp]: second bundle of [server/index.js]; the provider exposes
      [setAndPersistToken] and uses the storage key ["token"];
    - [AxiosApp]  : the bundle of [unnamed/part_000]; an axios service module
      ([services/api.ts]) and a provider that keeps a boolean flag.

    Every bundle is embedded as written: browser storage is a finite map,
    JavaScript values keep their truthiness and string conversion, handlers
    are programs of a small state-and-exception monad whose only effects are
    the ones the source has (storage, component state, HTTP requests). *)

From Stdlib Require Import Ascii DecimalString DecimalN.
From stdpp Require Import base strings gmap list.

Open Scope string_scope.
Open Scope list_scope.

(** ** JavaScript values that reach the session code *)

(** A token, an error message or a JSON field is a string, [null] or
    [undefined] at run time (the TypeScript types say [string | null], the
    parsed JSON is [any]). *)
Inductive JsVal : Type :=
  | JUndefined
  | JNull
  | JStr (s : string).

#[global] Instance JsVal_eq_dec : EqDecision JsVal.
Proof. solve_decision. Defined.

(** [!!v]: the empty string, [null] and [undefined] are falsy. *)
Definition truthy (v : JsVal) : bool :=
  match v with
  | JStr s => negb (String.eqb s "")
  | JUndefined | JNull => false
  end.

(** [String(v)], as template literals and [localStorage.setItem] apply it. *)
Definition toString (v : JsVal) : string :=
  match v with
  | JUndefined => "undefined"
  | JNull => "null"
  | JStr s => s
  end.

(** [a || b] *)
Definition js_or (a b : JsVal) : JsVal := if truthy a then a else b.

(** ** Browser storage ([localStorage]) *)

Abbreviation Storage := (gmap string string).

Definition getItem (key : string) (st : Storage) : JsVal :=
  match st !! key with
  | Some s => JStr s
  | None => JNull
  end.

Definition setItem (key : string) (v : JsVal) (st : Storage) : Storage :=
  <[key := toString v]> st.

Definition removeItem (key : string) (st : Storage) : Storage :=
  delete key st.

(** ** HTTP as the client sees it *)

Inductive Method : Type := GET | POST | DELETE.

#[global] Instance Method_eq_dec : EqDecision Method.
Proof. solve_decision. Defined.

(** A field of a JSON request body. *)
Inductive Field : Type :=
  | FStr (s : string)
  | FNum (z : Z)
  | FUndef.

Record Request : Type := mkRequest {
  url : string;
  method : Method;
  headers : list (string * string);
  body : list (string * Field)
}.

(** A JSON value other than [null], as far as the client looks at it: the
    two fields the session code reads ([undefined] when the value has no such
    property) and the rows a list view displays. *)
Record Json : Type := mkJson {
  token_field : JsVal;
  message_field : JsVal;
  rows : list string
}.

(** The body of a response: text that is not JSON (the empty body included),
    the JSON value [null], or another JSON value. *)
Inductive Body : Type :=
  | NotJson
  | JsonNull
  | JsonValue (d : Json).

#[global] Instance Json_eq_dec : EqDecision Json.
Proof. solve_decision. Defined.

#[global] Instance Body_eq_dec : EqDecision Body.
Proof. solve_decision. Defined.

(** A response that arrived: its status and its body. *)
Record Response : Type := mkResponse {
  status : nat;
  json : Body
}.

(** [response.ok]: the status is in the range 200-299. *)
Definition ok (r : Response) : bool :=
  (200 <=? status r)%nat && (status r <? 300)%nat.

(** What awaiting a request yields: the promise rejects (no answer) or
    resolves with a response. *)
Inductive FetchResult : Type :=
  | Rejected
  | Resolved (r : Response).

(** The network and the server behind it: the answer to a request may depend
    on the requests the client sent before it (oldest first), which is all
    the server ever learns from this client. *)
Definition Network : Type := list Request -> Request -> FetchResult.

(** Looking a header up by name. *)
Fixpoint header (name : string) (hs : list (string * string)) : option string :=
  match hs with
  | [] => None
  | (k, v) :: hs' => if String.eqb k name then Some v else header name hs'
  end.

(** The value of the [Authorization] header of a request, when present. *)
Definition authorization (r : Request) : option string :=
  header "Authorization" (headers r).

(** ** The client's world and its effects *)

(** Browser storage, the requests sent so far (oldest first) and the React
    state [S] of the bundle's components. *)
Record World (S : Type) : Type := mkWorld {
  storage : Storage;
  sent : list Request;
  ui : S
}.
Arguments mkWorld {S} _ _ _.
Arguments storage {S} _.
Arguments sent {S} _.
Arguments ui {S} _.

(** What a [catch] clause or an error boundary receives. *)
Inductive JsError : Type :=
  | NetworkError                (* a rejected request promise *)
  | SyntaxError                 (* [response.json()] on a body that is not JSON *)
  | TypeError                   (* reading a property of [null] *)
  | AxiosError (st : nat)       (* axios rejecting a status outside 200-299 *)
  | Error (message : string).   (* [throw new Error(message)] *)

Inductive Outcome (A : Type) : Type :=
  | Returned (a : A)
  | Thrown (e : JsError).
Arguments Returned {A} _.
Arguments Thrown {A} _.

(** A handler: it reads the network, updates the world, and returns or throws. *)
Definition Eff (S A : Type) : Type := Network -> World S -> Outcome A * World S.

#[global] Instance Eff_ret {S} : MRet (Eff S) :=
  fun A a _ w => (Returned a, w).

#[global] Instance Eff_bind {S} : MBind (Eff S) :=
  fun A B k m net w =>
    match m net w with
    | (Returned a, w') => k a net w'
    | (Thrown e, w') => (Thrown e, w')
    end.

Definition throw {S A} (e : JsError) : Eff S A := fun _ w => (Thrown e, w).

(** [try { body } catch { handler }] *)
Definition try_catch {S A} (body : Eff S A) (handler : Eff S A) : Eff S A :=
  fun net w =>
    match body net w with
    | (Returned a, w') => (Returned a, w')
    | (Thrown _, w') => handler net w'
    end.

Definition get_ui {S} : Eff S S := fun _ w => (Returned (ui w), w).

Definition set_ui {S} (f : S -> S) : Eff S unit :=
  fun _ w => (Returned (), mkWorld (storage w) (sent w) (f (ui w))).

Definition localStorage_getItem {S} (key : string) : Eff S JsVal :=
  fun _ w => (Returned (getItem key (storage w)), w).

Definition localStorage_setItem {S} (key : string) (v : JsVal) : Eff S unit :=
  fun _ w => (Returned (), mkWorld (setItem key v (storage w)) (sent w) (ui w)).

Definition localStorage_removeItem {S} (key : string) : Eff S unit :=
  fun _ w => (Returned (), mkWorld (removeItem key (storage w)) (sent w) (ui w)).

(** [await fetch(...)]: the request goes out; a rejected promise throws. *)
Definition fetch {S} (req : Request) : Eff S Response :=
  fun net w =>
    let w' := mkWorld (storage w) (sent w ++ [req]) (ui w) in
    match net (sent w) req with
    | Rejected => (Thrown NetworkError, w')
    | Resolved r => (Returned r, w')
    end.

(** [await response.json()]: rejects on a body that is not JSON, and
    resolves with the parsed value otherwise, [null] included. *)
Definition response_json {S} (r : Response) : Eff S Body :=
  match json r with
  | NotJson => throw SyntaxError
  | data => mret data
  end.

(** [data.field]: the property of a JSON value; reading a property of [null]
    throws, and a string (a body axios could not parse) has no such
    property. *)
Definition prop {S} (field : Json -> JsVal) (data : Body) : Eff S JsVal :=
  match data with
  | JsonValue d => mret (field d)
  | JsonNull => throw TypeError
  | NotJson => mret JUndefined
  end.

(** The rows of the data a list view is given; [null] and a string have none. *)
Definition rows_of (data : Body) : list string :=
  match data with
  | JsonValue d => rows d
  | JsonNull | NotJson => []
  end.

(** [await axios.get/post(...)]: like [fetch], but a status outside 200-299
    rejects as well; the resolved value carries [response.data]: the parsed
    body, [null] included, or the text of a body that is not JSON. *)
Definition axios {S} (req : Request) : Eff S Body :=
  r ← fetch req;
  if ok r then mret (json r)
  else throw (AxiosError (status r)).

(** Running a handler to its final world. *)
Definition run {S A} (m : Eff S A) (net : Network) (w : World S) : World S :=
  (m net w).2.

(** The two states of the session gate. *)
Inductive SessionGate : Type := Anonymous | Authenticated.

#[global] Instance SessionGate_eq_dec : EqDecision SessionGate.
Proof. solve_decision. Defined.

(** What a guarded route element renders. *)
Inductive View : Type :=
  | Navigate (to : string)
  | Children
  | LoginView.

(** ** First bundle of [server/index.js]: token in context, key ["authToken"] *)

Module TokenApp.

(** React state of the components that take part in the session. *)
Record Ui : Type := mkUi {
  token : JsVal;                (* AuthProvider: useState(localStorage.getItem('authToken')) *)
  location : string;            (* router location *)
  login_error : JsVal;          (* Login: error *)
  items : list string;          (* Dashboard: items *)
  dashboard_error : JsVal;      (* Dashboard: error *)
  add_item_error : JsVal;       (* AddItem: error *)
  transactions : list string;   (* TransactionList: transactions *)
  transactions_error : JsVal    (* TransactionList: error *)
}.

Definition setToken (v : JsVal) (u : Ui) : Ui :=
  mkUi v (location u) (login_error u) (items u) (dashboard_error u)
       (add_item_error u) (transactions u) (transactions_error u).
Definition navigate (to : string) (u : Ui) : Ui :=
  mkUi (token u) to (login_error u) (items u) (dashboard_error u)
       (add_item_error u) (transactions u) (transactions_error u).
Definition setLoginError (v : JsVal) (u : Ui) : Ui :=
  mkUi (token u) (location u) v (items u) (dashboard_error u)
       (add_item_error u) (transactions u) (transactions_error u).
Definition setItems (f : list string -> list string) (u : Ui) : Ui :=
  mkUi (token u) (location u) (login_error u) (f (items u)) (dashboard_error u)
       (add_item_error u) (transactions u) (transactions_error u).
Definition setDashboardError (v : JsVal) (u : Ui) : Ui :=
  mkUi (token u) (location u) (login_error u) (items u) v
       (add_item_error u) (transactions u) (transactions_error u).
Definition setAddItemError (v : JsVal) (u : Ui) : Ui :=
  mkUi (token u) (location u) (login_error u) (items u) (dashboard_error u)
       v (transactions u) (transactions_error u).
Definition setTransactions (l : list string) (u : Ui) : Ui :=
  mkUi (token u) (location u) (login_error u) (items u) (dashboard_error u)
       (add_item_error u) l (transactions_error u).
Definition setTransactionsError (v : JsVal) (u : Ui) : Ui :=
  mkUi (token u) (location u) (login_error u) (items u) (dashboard_error u)
       (add_item_error u) (transactions u) v.

(** [AuthProvider]: the state a freshly started client has over the storage
    [st], at the location [path]. *)
Definition AuthProvider (st : Storage) (path : string) : World Ui :=
  mkWorld st []
    (mkUi (getItem "authToken" st) path (JStr "") [] (JStr "") (JStr "") [] (JStr "")).

Definition login (token : JsVal) : Eff Ui unit :=
  set_ui (setToken token);;
  localStorage_setItem "authToken" token.

Definition logout : Eff Ui unit :=
  set_ui (setToken JNull);;
  localStorage_removeItem "authToken".

(** The value an [AuthContext.Provider] hands down. *)
Record AuthContextType : Type := mkAuthContext {
  ctx_token : JsVal;
  ctx_login : JsVal -> Eff Ui unit;
  ctx_logout : Eff Ui unit
}.

Definition provided (u : Ui) : AuthContextType :=
  mkAuthContext (token u) login logout.

(** [useContext(AuthContext)] under the enclosing providers (innermost
    first); the context was created with the default [undefined]. *)
Definition useContext (enclosing : list AuthContextType) : option AuthContextType :=
  head enclosing.

Definition useAuth (enclosing : list AuthContextType) : Outcome AuthContextType :=
  match useContext enclosing with
  | None => Thrown (Error "useAuth must be used within an AuthProvider")
  | Some context => Returned context
  end.

(** [ProtectedRoute] *)
Definition ProtectedRoute (u : Ui) : View :=
  if negb (truthy (token u)) then Navigate "/" else Children.

(** The session gate is what [ProtectedRoute] lets through. *)
Definition gate (w : World Ui) : SessionGate :=
  match ProtectedRoute (ui w) with
  | Children => Authenticated
  | _ => Anonymous
  end.

Definition login_request (email password : string) : Request :=
  mkRequest "http://localhost:5000/api/users/login" POST
    [("Content-Type", "application/json")]
    [("email", FStr email); ("password", FStr password)].

(** [Login.handleSubmit] *)
Definition Login_handleSubmit (email password : string) : Eff Ui unit :=
  try_catch
    (response ← fetch (login_request email password);
     data ← response_json response;
     if ok response then
       token ← prop token_field data;
       login token;;
       set_ui (navigate "/dashboard")
     else
       message ← prop message_field data;
       set_ui (setLoginError message))
    (set_ui (setLoginError (JStr "An error occurred. Please try again."))).

Definition bearer (token : JsVal) : string := "Bearer " +:+ toString token.

Definition items_request (token : JsVal) : Request :=
  mkRequest "http://localhost:5000/api/items" GET
    [("Authorization", bearer token)] [].

(** [Dashboard]: the [fetchItems] effect. *)
Definition fetchItems : Eff Ui unit :=
  u ← get_ui;
  try_catch
    (response ← fetch (items_request (token u));
     data ← response_json response;
     if ok response then
       set_ui (setItems (fun _ => rows_of data))
     else
       message ← prop message_field data;
       set_ui (setDashboardError (js_or message (JStr "Failed to fetch items"))))
    (set_ui (setDashboardError (JStr "An error occurred. Please try again."))).

Definition add_item_request (token : JsVal)
    (name description : string) (price : Z) (image : string) : Request :=
  mkRequest "http://localhost:5000/api/items" POST
    [("Content-Type", "application/json"); ("Authorization", bearer token)]
    [("name", FStr name); ("description", FStr description);
     ("price", FNum price); ("image", FStr image)].

(** [AddItem.handleSubmit]; the form fields are the handler's arguments
    ([price] is [undefined] until a number is typed, and [NaN] is as falsy as
    [undefined]); clearing the fields after a success changes no state kept
    here. *)
Definition AddItem_handleSubmit
    (name description : string) (price : option Z) (image : string) : Eff Ui unit :=
  u ← get_ui;
  match price with
  | None | Some 0%Z => set_ui (setAddItemError (JStr "Price is required"))
  | Some p =>
      try_catch
        (response ← fetch (add_item_request (token u) name description p image);
         data ← response_json response;
         if ok response then
           set_ui (setItems (fun prevItems => prevItems ++ rows_of data))
         else
           message ← prop message_field data;
           set_ui (setAddItemError message))
        (set_ui (setAddItemError (JStr "An error occurred. Please try again.")))
  end.

Definition transactions_request (token : JsVal) : Request :=
  mkRequest "http://localhost:5000/api/transactions" GET
    [("Authorization", bearer token)] [].

(** [TransactionList]: the [fetchTransactions] effect. *)
Definition fetchTransactions : Eff Ui unit :=
  u ← get_ui;
  try_catch
    (response ← fetch (transactions_request (token u));
     data ← response_json response;
     if ok response then
       set_ui (setTransactions (rows_of data))
     else
       message ← prop message_field data;
       set_ui (setTransactionsError message))
    (set_ui (setTransactionsError (JStr "An error occurred. Please try again."))).

(** The calls this bundle makes to protected resources. *)
Inductive ProtectedCall : Type :=
  | CallFetchItems
  | CallAddItem (name description : string) (price : option Z) (image : string)
  | CallFetchTransactions.

Definition perform (c : ProtectedCall) : Eff Ui unit :=
  match c with
  | CallFetchItems => fetchItems
  | CallAddItem n d p i => AddItem_handleSubmit n d p i
  | CallFetchTransactions => fetchTransactions
  end.

End TokenApp.

(** ** Second bundle of [server/index.js]: [setAndPersistToken], key ["token"] *)

Module PersistApp.

Record Ui : Type := mkUi {
  token : JsVal;                (* AuthProvider: useState(localStorage.getItem('token')) *)
  login_error : JsVal;          (* Login: error *)
  items : list string;          (* Dashboard: items *)
  dashboard_error : JsVal;      (* Dashboard: error *)
  add_item_error : JsVal;       (* AddItem: error *)
  alerts : list string;         (* ItemList: the alert() dialogs shown, oldest first *)
  transactions : list string;   (* TransactionList: transactions *)
  transactions_error : JsVal    (* TransactionList: error *)
}.

Definition setToken (v : JsVal) (u : Ui) : Ui :=
  mkUi v (login_error u) (items u) (dashboard_error u) (add_item_error u)
       (alerts u) (transactions u) (transactions_error u).
Definition setLoginError (v : JsVal) (u : Ui) : Ui :=
  mkUi (token u) v (items u) (dashboard_error u) (add_item_error u)
       (alerts u) (transactions u) (transactions_error u).
Definition setItems (f : list string -> list string) (u : Ui) : Ui :=
  mkUi (token u) (login_error u) (f (items u)) (dashboard_error u) (add_item_error u)
       (alerts u) (transactions u) (transactions_error u).
Definition setDashboardError (v : JsVal) (u : Ui) : Ui :=
  mkUi (token u) (login_error u) (items u) v (add_item_error u)
       (alerts u) (transactions u) (transactions_error u).
Definition setAddItemError (v : JsVal) (u : Ui) : Ui :=
  mkUi (token u) (login_error u) (items u) (dashboard_error u) v
       (alerts u) (transactions u) (transactions_error u).
Definition alert (msg : string) (u : Ui) : Ui :=
  mkUi (token u) (login_error u) (items u) (dashboard_error u) (add_item_error u)
       (alerts u ++ [msg]) (transactions u) (transactions_error u).
Definition setTransactions (l : list string) (u : Ui) : Ui :=
  mkUi (token u) (login_error u) (items u) (dashboard_error u) (add_item_error u)
       (alerts u) l (transactions_error u).
Definition setTransactionsError (v : JsVal) (u : Ui) : Ui :=
  mkUi (token u) (login_error u) (items u) (dashboard_error u) (add_item_error u)
       (alerts u) (transactions u) v.

(** [AuthProvider]: the state of a freshly started client. *)
Definition AuthProvider (st : Storage) : World Ui :=
  mkWorld st []
    (mkUi (getItem "token" st) (JStr "") [] (JStr "") (JStr "") [] [] (JStr "")).

Definition setAndPersistToken (token : JsVal) : Eff Ui unit :=
  set_ui (setToken token);;
  if truthy token then
    localStorage_setItem "token" token
  else
    localStorage_removeItem "token".

Definition logout : Eff Ui unit :=
  setAndPersistToken JNull.

Record AuthContextType : Type := mkAuthContext {
  ctx_token : JsVal;
  ctx_setToken : JsVal -> Eff Ui unit;
  ctx_logout : Eff Ui unit
}.

Definition provided (u : Ui) : AuthContextType :=
  mkAuthContext (token u) setAndPersistToken logout.

Definition useContext (enclosing : list AuthContextType) : option AuthContextType :=
  head enclosing.

Definition useAuth (enclosing : list AuthContextType) : Outcome AuthContextType :=
  match useContext enclosing with
  | None => Thrown (Error "useAuth must be used within an AuthProvider")
  | Some context => Returned context
  end.

(** [ProtectedRoute] of [App.tsx] *)
Definition ProtectedRoute (u : Ui) : View :=
  if truthy (token u) then Children else Navigate "/login".

Definition gate (w : World Ui) : SessionGate :=
  match ProtectedRoute (ui w) with
  | Children => Authenticated
  | _ => Anonymous
  end.

Definition login_request (email password : string) : Request :=
  mkRequest "http://localhost:5000/api/users/login" POST
    [("Content-Type", "application/json")]
    [("email", FStr email); ("password", FStr password)].

(** [Login.handleSubmit] *)
Definition Login_handleSubmit (email password : string) : Eff Ui unit :=
  try_catch
    (response ← fetch (login_request email password);
     data ← response_json response;
     if ok response then
       token ← prop token_field data;
       setAndPersistToken token
     else
       message ← prop message_field data;
       set_ui (setLoginError (js_or message (JStr "Login failed"))))
    (set_ui (setLoginError (JStr "An error occurred. Please try again."))).

Definition bearer (token : JsVal) : string := "Bearer " +:+ toString token.

Definition items_request (token : JsVal) : Request :=
  mkRequest "http://localhost:5000/api/items" GET
    [("Authorization", bearer token)] [].

(** [Dashboard]: the [fetchItems] effect. *)
Definition fetchItems : Eff Ui unit :=
  u ← get_ui;
  try_catch
    (response ← fetch (items_request (token u));
     data ← response_json response;
     if ok response then
       set_ui (setItems (fun _ => rows_of data))
     else
       message ← prop message_field data;
       set_ui (setDashboardError (js_or message (JStr "Failed to fetch items"))))
    (set_ui (setDashboardError (JStr "An error occurred. Please try again."))).

Definition delete_request (token : JsVal) (id : string) : Request :=
  mkRequest ("http://localhost:5000/api/items/" +:+ id) DELETE
    [("Authorization", bearer token)] [].

(** [ItemList.handleDelete]: the token is read from storage at call time. *)
Definition handleDelete (id : string) : Eff Ui unit :=
  try_catch
    (stored ← localStorage_getItem "token";
     response ← fetch (delete_request stored id);
     if ok response then
       set_ui (alert "Item deleted successfully")
     else
       set_ui (alert "Failed to delete item"))
    (set_ui (alert "An error occurred. Please try again.")).

Definition add_item_request (token : JsVal)
    (name description : string) (price : Field) (image : string) : Request :=
  mkRequest "http://localhost:5000/api/items" POST
    [("Content-Type", "application/json"); ("Authorization", bearer token)]
    [("name", FStr name); ("description", FStr description);
     ("price", price); ("image", FStr image)].

(** [AddItem.handleSubmit]; the form fields are the handler's arguments
    ([price] is a number or the empty string); clearing them after a success
    changes no state kept here. *)
Definition AddItem_handleSubmit
    (name description : string) (price : Field) (image : string) : Eff Ui unit :=
  try_catch
    (stored ← localStorage_getItem "token";
     response ← fetch (add_item_request stored name description price image);
     data ← response_json response;
     if ok response then
       set_ui (setItems (fun prev => prev ++ rows_of data));;
       set_ui (setAddItemError (JStr ""))
     else
       message ← prop message_field data;
       set_ui (setAddItemError (js_or message (JStr "Failed to add item"))))
    (set_ui (setAddItemError (JStr "An error occurred. Please try again."))).

Definition transactions_request (token : JsVal) : Request :=
  mkRequest "http://localhost:5000/api/transactions" GET
    [("Authorization", bearer token)] [].

(** [TransactionList]: the [fetchTransactions] effect. *)
Definition fetchTransactions : Eff Ui unit :=
  u ← get_ui;
  try_catch
    (response ← fetch (transactions_request (token u));
     data ← response_json response;
     if ok response then
       set_ui (setTransactions (rows_of data))
     else
       message ← prop message_field data;
       set_ui (setTransactionsError
                 (js_or message (JStr "Failed to fetch transactions"))))
    (set_ui (setTransactionsError (JStr "An error occurred. Please try again."))).

(** The calls this bundle makes to protected resources. *)
Inductive ProtectedCall : Type :=
  | CallFetchItems
  | CallDelete (id : string)
  | CallAddItem (name description : string) (price : Field) (image : string)
  | CallFetchTransactions.

Definition perform (c : ProtectedCall) : Eff Ui unit :=
  match c with
  | CallFetchItems => fetchItems
  | CallDelete id => handleDelete id
  | CallAddItem n d p i => AddItem_handleSubmit n d p i
  | CallFetchTransactions => fetchTransactions
  end.

End PersistApp.

(** ** The bundle of [unnamed/part_000]: axios service and boolean flag *)

Module AxiosApp.

Record Ui : Type := mkUi {
  isAuthenticated : bool;       (* AuthProvider: useState(false) *)
  location : string;            (* router location *)
  login_error : JsVal;          (* Login: error *)
  register_error : JsVal;       (* Register: error *)
  items : list string;          (* ItemList: items *)
  transactions : list string    (* TransactionList: transactions *)
}.

Definition setIsAuthenticated (b : bool) (u : Ui) : Ui :=
  mkUi b (location u) (login_error u) (register_error u) (items u) (transactions u).
Definition navigate (to : string) (u : Ui) : Ui :=
  mkUi (isAuthenticated u) to (login_error u) (register_error u) (items u) (transactions u).
Definition setLoginError (v : JsVal) (u : Ui) : Ui :=
  mkUi (isAuthenticated u) (location u) v (register_error u) (items u) (transactions u).
Definition setRegisterError (v : JsVal) (u : Ui) : Ui :=
  mkUi (isAuthenticated u) (location u) (login_error u) v (items u) (transactions u).
Definition setItems (l : list string) (u : Ui) : Ui :=
  mkUi (isAuthenticated u) (location u) (login_error u) (register_error u) l (transactions u).
Definition setTransactions (l : list string) (u : Ui) : Ui :=
  mkUi (isAuthenticated u) (location u) (login_error u) (register_error u) (items u) l.

(** *** [services/api.ts] *)

Definition API_URL : string := "http://localhost:5000/api".

Definition items_request : Request :=
  mkRequest (API_URL +:+ "/items") GET [] [].

Definition fetchItems : Eff Ui (list string) :=
  data ← axios items_request;
  mret (rows_of data).

Definition add_item_request
    (name description : string) (price : Field) (image : string) : Request :=
  mkRequest (API_URL +:+ "/items") POST []
    [("name", FStr name); ("description", FStr description);
     ("price", price); ("image", FStr image)].

Definition addItem
    (name description : string) (price : Field) (image : string) : Eff Ui unit :=
  axios (add_item_request name description price image);;
  mret ().

Definition transactions_request : Request :=
  mkRequest (API_URL +:+ "/transactions") GET [] [].

Definition fetchTransactions : Eff Ui (list string) :=
  data ← axios transactions_request;
  mret (rows_of data).

Definition login_request (email password : string) : Request :=
  mkRequest (API_URL +:+ "/auth/login") POST []
    [("email", FStr email); ("password", FStr password)].

Definition api_login (email password : string) : Eff Ui unit :=
  data ← axios (login_request email password);
  token ← prop token_field data;
  localStorage_setItem "token" token.

Definition register_request (username email password : string) : Request :=
  mkRequest (API_URL +:+ "/auth/register") POST []
    [("username", FStr username); ("email", FStr email); ("password", FStr password)].

Definition api_register (username email password : string) : Eff Ui unit :=
  data ← axios (register_request username email password);
  token ← prop token_field data;
  localStorage_setItem "token" token.

Definition api_logout : Eff Ui unit :=
  localStorage_removeItem "token".

(** *** [context/AuthContext.tsx] *)

(** First render of [AuthProvider]: the flag starts [false]. *)
Definition AuthProvider_render (st : Storage) (path : string) : World Ui :=
  mkWorld st [] (mkUi false path (JStr "") (JStr "") [] []).

(** The mount effect of [AuthProvider]. *)
Definition AuthProvider_effect : Eff Ui unit :=
  token ← localStorage_getItem "token";
  set_ui (setIsAuthenticated (truthy token)).

(** [AuthProvider]: the state of a freshly started client once mounted
    (the effect makes no request, so the network it runs under is idle). *)
Definition AuthProvider (st : Storage) (path : string) : World Ui :=
  run AuthProvider_effect (fun _ _ => Rejected) (AuthProvider_render st path).

Definition login (email password : string) : Eff Ui unit :=
  api_login email password;;
  set_ui (setIsAuthenticated true).

Definition register (username email password : string) : Eff Ui unit :=
  api_register username email password;;
  set_ui (setIsAuthenticated true).

Definition logout : Eff Ui unit :=
  api_logout;;
  set_ui (setIsAuthenticated false).

Record AuthContextProps : Type := mkAuthContext {
  ctx_isAuthenticated : bool;
  ctx_login : string -> string -> Eff Ui unit;
  ctx_register : string -> string -> string -> Eff Ui unit;
  ctx_logout : Eff Ui unit
}.

(** The default value given to [createContext]. *)
Definition default_context : AuthContextProps :=
  mkAuthContext false (fun _ _ => mret ()) (fun _ _ _ => mret ()) (mret ()).

Definition provided (u : Ui) : AuthContextProps :=
  mkAuthContext (isAuthenticated u) login register logout.

Definition useContext (enclosing : list AuthContextProps) : AuthContextProps :=
  default default_context (head enclosing).

Definition useAuth (enclosing : list AuthContextProps) : Outcome AuthContextProps :=
  Returned (useContext enclosing).

(** [ProtectedRoute] of the later [App.tsx] *)
Definition ProtectedRoute (u : Ui) : View :=
  if isAuthenticated u then Children else LoginView.

Definition gate (w : World Ui) : SessionGate :=
  match ProtectedRoute (ui w) with
  | Children => Authenticated
  | _ => Anonymous
  end.

(** *** Components *)

(** [Login.handleSubmit] *)
Definition Login_handleSubmit (email password : string) : Eff Ui unit :=
  try_catch
    (login email password;;
     set_ui (navigate "/dashboard"))
    (set_ui (setLoginError (JStr "Invalid email or password"))).

(** [Register.handleSubmit] *)
Definition Register_handleSubmit (username email password : string) : Eff Ui unit :=
  try_catch
    (register username email password;;
     set_ui (navigate "/dashboard"))
    (set_ui (setRegisterError (JStr "Registration failed"))).

(** [ItemList]: [loadItems] (no [catch]: a rejection escapes). *)
Definition loadItems : Eff Ui unit :=
  fetchedItems ← fetchItems;
  set_ui (setItems fetchedItems).

(** [window.location.reload()]: the client starts again over the same
    storage; the requests already sent stay sent. *)
Definition reload : Eff Ui unit :=
  fun _ w =>
    let fresh := AuthProvider (storage w) (location (ui w)) in
    (Returned (), mkWorld (storage fresh) (sent w) (ui fresh)).

(** [AddItem.handleSubmit] ([price] is [parseFloat] of the field). *)
Definition AddItem_handleSubmit
    (name description : string) (price : Field) (image : string) : Eff Ui unit :=
  addItem name description price image;;
  reload.

(** [TransactionList]: [loadTransactions]. *)
Definition loadTransactions : Eff Ui unit :=
  fetchedTransactions ← fetchTransactions;
  set_ui (setTransactions fetchedTransactions).

(** The calls this bundle makes to protected resources. *)
Inductive ProtectedCall : Type :=
  | CallLoadItems
  | CallAddItem (name description : string) (price : Field) (image : string)
  | CallLoadTransactions.

Definition perform (c : ProtectedCall) : Eff Ui unit :=
  match c with
  | CallLoadItems => loadItems
  | CallAddItem n d p i => AddItem_handleSubmit n d p i
  | CallLoadTransactions => loadTransactions
  end.

End AxiosApp.

(** ** The Express application of [server/index.js] *)

Module Server.

(** The stages a request can pass through. *)
Inductive Stage : Type :=
  | ExpressJson
  | Helmet
  | CrossOriginResourcePolicy
  | Morgan
  | BodyParserJson
  | BodyParserUrlencoded
  | Cors
  | ExpressStatic                  (* express.static(public/assets) *)
  | UploadSingle (field : string)  (* upload.single(field) *)
  | VerifyToken                    (* the access guard, middleware/auth.js *)
  | Register                       (* controllers/auth.js *)
  | CreatePost                     (* controllers/posts.js *)
  | Handler (name : string).       (* a handler of a mounted router *)

#[global] Instance Stage_eq_dec : EqDecision Stage.
Proof. solve_decision. Defined.

(** A request path is the list of the texts between its slashes:
    ["/auth/register"] is [["auth"; "register"]], ["/posts/"] is
    [["posts"; ""]] and ["/"] is [[""]]. *)
Definition Path : Type := list string.

(** A mounted router ([routes/auth.js], [routes/users.js],
    [routes/posts.js]): the stages it runs for a method and the path below
    its mount point, [None] when it has no route for them.  The three
    router modules are not part of the sources, so the application is
    parameterised by them. *)
Definition Router : Type := Method -> Path -> option (list Stage).

Inductive Layer : Type :=
  | Use (prefix : Path) (s : Stage)                    (* app.use([prefix,] middleware) *)
  | Mount (prefix : Path) (r : Router)                 (* app.use(prefix, router) *)
  | Route (m : Method) (p : Path) (stages : list Stage). (* app.post(path, ...handlers) *)

(** Lower case, for the letters A to Z. *)
Definition lower_ascii (c : ascii) : ascii :=
  let n := nat_of_ascii c in
  if (65 <=? n)%nat && (n <=? 90)%nat then ascii_of_nat (n + 32) else c.

Fixpoint lower (s : string) : string :=
  match s with
  | EmptyString => EmptyString
  | String c rest => String (lower_ascii c) (lower rest)
  end.

(** Express compares paths without regard to the case of letters, which is
    its default and the setting [app] is left with. *)
Definition same_segment (a b : string) : bool :=
  String.eqb (lower a) (lower b).

(** [strip prefix p]: the rest of [p] below the mount path [prefix], when [p]
    lies below it. *)
Fixpoint strip (prefix p : Path) : option Path :=
  match prefix, p with
  | [], _ => Some p
  | a :: prefix', b :: p' => if same_segment a b then strip prefix' p' else None
  | _ :: _, [] => None
  end.

(** Whether the route path [pattern] matches [p]: all of it, with or without
    one closing slash (routing is not strict, the default). *)
Definition route_matches (pattern p : Path) : bool :=
  match strip pattern p with
  | Some [] | Some [EmptyString] => true
  | _ => false
  end.

(** The stages a layer puts on the way of a request. *)
Definition layer_stages (l : Layer) (m : Method) (p : Path) : list Stage :=
  match l with
  | Use prefix s =>
      match strip prefix p with
      | Some _ => [s]
      | None => []
      end
  | Mount prefix r =>
      match strip prefix p with
      | Some below => default [] (r m below)
      | None => []
      end
  | Route m' pattern stages =>
      if bool_decide (m = m') && route_matches pattern p then stages else []
  end.

(** The stages on the way of a request, in the order Express calls them:
    those of every layer that matches, in registration order. *)
Fixpoint installed (layers : list Layer) (m : Method) (p : Path) : list Stage :=
  match layers with
  | [] => []
  | l :: rest => layer_stages l m p ++ installed rest m p
  end.

(** What becomes of a request: each stage it meets either passes it on
    ([next()]) or ends it, by answering or by failing; [passes] tells which.
    The request meets the stages on its way up to the first that ends it. *)
Fixpoint met (passes : Stage -> bool) (stages : list Stage) : list Stage :=
  match stages with
  | [] => []
  | s :: rest => s :: if passes s then met passes rest else []
  end.

Definition traverse (passes : Stage -> bool) (layers : list Layer)
    (m : Method) (p : Path) : list Stage :=
  met passes (installed layers m p).

(** The middleware installed for every request. *)
Definition global_middleware : list Stage :=
  [ExpressJson; Helmet; CrossOriginResourcePolicy; Morgan;
   BodyParserJson; BodyParserUrlencoded; Cors].

(** [app], in registration order. *)
Definition app (authRoutes userRoutes postRoutes : Router) : list Layer :=
  map (Use []) global_middleware ++
  [ Use ["assets"] ExpressStatic;
    Route POST ["auth"; "register"] [UploadSingle "picture"; Register];
    Route POST ["posts"] [VerifyToken; UploadSingle "picture"; CreatePost];
    Mount ["auth"] authRoutes;
    Mount ["users"] userRoutes;
    Mount ["posts"] postRoutes ].

(** Whether the access guard is among the stages of a request. *)
Definition guarded (stages : list Stage) : bool :=
  bool_decide (VerifyToken ∈ stages).

(** Modelled from the spec: [routes/auth.js] is not among the sources.
    Section 6 places login at [POST /auth/login], and section 4.2 requires
    that it bypasses the guard entirely: the router mounted at [/auth] serves
    [POST /login] with no guard among its stages. *)
Definition login_is_public (authRoutes : Router) : Prop :=
  forall below,
    route_matches ["login"] below = true ->
    exists stages, authRoutes POST below = Some stages /\ VerifyToken ∉ stages.

(** Modelled from the spec: [routes/posts.js] is not among the sources.
    Sections 4.2 and 6 require the guard on every route that reads or mutates
    posts: whatever request the router mounted at [/posts] serves, the guard
    is the first stage it runs. *)
Definition every_route_guarded (r : Router) : Prop :=
  forall m below stages,
    r m below = Some stages -> exists rest, stages = VerifyToken :: rest.

(** Modelled from the spec: routers that meet the two contracts, the least
    the spec's section 6 asks for: [POST /auth/login] answered by a handler
    alone, and every request below [/posts] behind the guard. *)
Definition login_only : Router :=
  fun m below =>
    if bool_decide (m = POST) && route_matches ["login"] below
    then Some [Handler "login"] else None.

Definition all_guarded : Router :=
  fun _ _ => Some [VerifyToken; Handler "posts"].

Definition no_routes : Router := fun _ _ => None.

(** A guard that rejects, every other stage passing the request on. *)
Definition guard_rejects (s : Stage) : bool :=
  negb (bool_decide (s = VerifyToken)).

End Server.

(** ** Credential issuer and access guard *)

Module AuthCore.

Inductive AuthError : Type :=
  | InvalidCredential
  | DuplicateIdentifier
  | Unauthenticated.

#[global] Instance AuthError_eq_dec : EqDecision AuthError.
Proof. solve_decision. Defined.

(** Modelled from the spec: the payload of a token, section 3, "Token":
    subject, issued-at timestamp and expiry timestamp (the controllers and
    the middleware that build and read it are not among the sources). *)
Record Claims : Type := mkClaims {
  subject : string;
  issuedAt : N;
  expiry : N
}.

(** Modelled from the spec: the user record of section 3 and 6,
    [User{id, hashedPassword, salt}]. *)
Record User : Type := mkUser {
  user_id : string;
  hashedPassword : string;
  salt : string
}.

(** Modelled from the spec: the user store of section 6, read through
    [findByIdentifier]. *)
Abbreviation UserStore := (gmap string User).

Definition findByIdentifier (identifier : string) (store : UserStore) : option User :=
  store !! identifier.

(** Modelled from the spec: what the server holds (sections 3 and 4.1): the
    signing secret, the keyed signature and the salted password hash it
    uses, the fixed session lifetime, and the message the HTTP layer sends
    for each tagged failure (section 7). *)
Record Policy : Type := mkPolicy {
  secret : string;
  mac : string -> string -> N;
  hash : string -> string -> string;
  lifetime : N;
  describe : AuthError -> string
}.

Definition dec (n : N) : string := NilEmpty.string_of_uint (N.to_uint n).

Definition undec (s : string) : option N :=
  N.of_uint <$> NilEmpty.uint_of_string s.

(** Cutting a string at its first dot. *)
Fixpoint cut (s : string) : option (string * string) :=
  match s with
  | EmptyString => None
  | String c rest =>
      if Ascii.eqb c "."%char then Some (EmptyString, rest)
      else match cut rest with
           | Some (a, b) => Some (String c a, b)
           | None => None
           end
  end.

Definition payload (c : Claims) : string :=
  dec (issuedAt c) +:+ "." +:+ dec (expiry c) +:+ "." +:+ subject c.

(** Modelled from the spec: a token is the payload preceded by its
    signature under the server's secret (section 3, "server-signed string
    encoding {subject, issued-at, expiry}"). *)
Definition sign (P : Policy) (c : Claims) : string :=
  dec (mac P (secret P) (payload c)) +:+ "." +:+ payload c.

(** Modelled from the spec: section 4.1, "On success: construct a Token
    with subject = the user's identifier, issued-at = current time, expiry =
    issued-at + a fixed session lifetime, sign it, return it." *)
Definition issueToken (P : Policy) (subject : string) (now : N) : string :=
  sign P (mkClaims subject now (now + lifetime P)).

Definition decode (pl : string) : option Claims :=
  '(iat, rest) ← cut pl;
  '(exp, sub) ← cut rest;
  iat ← undec iat;
  exp ← undec exp;
  Some (mkClaims sub iat exp).

(** The token carried by a bearer-style header value. *)
Definition bearer_token (value : string) : option string :=
  if String.prefix "Bearer " value
  then Some (String.substring 7 (String.length value - 7) value)
  else None.

(** Modelled from the spec: section 4.2, [authorize]: extract the token
    from the bearer header (absent or malformed fails), verify the
    signature against the server secret (mismatch fails), decode the payload
    and fail when the current time is at or past the expiry; on success
    yield the subject. *)
Definition authorize (P : Policy) (now : N) (rawHeaderValue : option string)
    : string + AuthError :=
  match rawHeaderValue with
  | None => inr Unauthenticated
  | Some value =>
      match bearer_token value with
      | None => inr Unauthenticated
      | Some token =>
          match cut token with
          | None => inr Unauthenticated
          | Some (signature, pl) =>
              if bool_decide (undec signature = Some (mac P (secret P) pl)) then
                match decode pl with
                | None => inr Unauthenticated
                | Some c =>
                    if (now <? expiry c)%N then inl (subject c)
                    else inr Unauthenticated
                end
              else inr Unauthenticated
          end
      end
  end.

(** Modelled from the spec: section 4.1, login: "look up the User record by
    identifier (exactly one match or fail InvalidCredential); recompute the
    password hash with the stored salt and compare; on mismatch fail
    InvalidCredential". *)
Definition login (P : Policy) (store : UserStore) (now : N)
    (identifier password : string) : string + AuthError :=
  match findByIdentifier identifier store with
  | None => inr InvalidCredential
  | Some u =>
      if String.eqb (hash P (salt u) password) (hashedPassword u)
      then inl (issueToken P (user_id u) now)
      else inr InvalidCredential
  end.

(** What the HTTP layer answers. *)
Inductive Reply : Type :=
  | ReplyToken (status : nat) (token : string)
  | ReplyMessage (status : nat) (message : string).

(** Modelled from the spec: section 6, [POST /auth/login -> 200 {token} |
    401 {message}], the tagged failure mapped to a status and a message
    (section 7). *)
Definition post_login (P : Policy) (store : UserStore) (now : N)
    (identifier password : string) : Reply :=
  match login P store now identifier password with
  | inl token => ReplyToken 200 token
  | inr e => ReplyMessage 401 (describe P e)
  end.

End AuthCore.

(** ** Notions the statements use *)

(** The requests a handler sends when run from [w]. *)
Definition new_requests {S A} (m : Eff S A) (net : Network) (w : World S) : list Request :=
  drop (length (sent w)) (sent (run m net w)).

(** How an awaited [fetch]-based login ends without a session: the request
    promise rejects, the status is outside 200-299, or the body is not JSON. *)
Definition fetch_login_fails (answer : FetchResult) : Prop :=
  match answer with
  | Rejected => True
  | Resolved r => ok r = false \/ json r = NotJson
  end.

(** How an axios login ends without a session: the promise rejects, for lack
    of an answer or for a status outside 200-299. *)
Definition axios_login_fails (answer : FetchResult) : Prop :=
  match answer with
  | Rejected => True
  | Resolved r => ok r = false
  end.

(** Provider state and storage agree on the token of an open session. *)
Definition TokenApp_in_sync (w : World TokenApp.Ui) : Prop :=
  truthy (TokenApp.token (ui w)) = true ->
  getItem "authToken" (storage w) = TokenApp.token (ui w).

Definition PersistApp_in_sync (w : World PersistApp.Ui) : Prop :=
  truthy (PersistApp.token (ui w)) = true ->
  getItem "token" (storage w) = PersistApp.token (ui w).

(** A session over the stored token "abc.def" whose item listing is answered
    with a 401. *)
Definition session_401 : Network :=
  fun _ _ => Resolved (mkResponse 401 (JsonValue (mkJson JUndefined (JStr "Unauthorized") []))).

Definition TokenApp_open_session : World TokenApp.Ui :=
  TokenApp.AuthProvider {["authToken" := "abc.def"]} "/dashboard".

(** A server policy to run the issuer and the guard on: a toy signature and
    a toy salted hash, a one-hour session. *)
Definition sample_policy : AuthCore.Policy :=
  AuthCore.mkPolicy "s3cr3t"
    (fun key message => N.of_nat (String.length key + 7 * String.length message))
    (fun salt password => salt +:+ "$" +:+ password)
    3600
    (fun e =>
       match e with
       | AuthCore.InvalidCredential => "Invalid credentials"
       | AuthCore.DuplicateIdentifier => "Identifier already registered"
       | AuthCore.Unauthenticated => "Not authenticated"
       end).

(** A user store holding alice, whose password is "correct-horse". *)
Definition sample_users : gmap string AuthCore.User :=
  {["alice@example.com" :=
      AuthCore.mkUser "u1" (AuthCore.hash sample_policy "pepper" "correct-horse") "pepper"]}.

(** The contract of a session store kept under [key], with [set] and [clear]
    as the provider exposes them; [storable] tells which strings [set] keeps. *)
Record SessionStoreLaws {S : Type} (key : string)
    (set : JsVal -> Eff S unit) (clear : Eff S unit) (storable : string -> Prop) : Prop := {
  set_then_get : forall t net w,
    storable t -> getItem key (storage (run (set (JStr t)) net w)) = JStr t;
  clear_then_get : forall net w,
    getItem key (storage (run clear net w)) = JNull;
  set_idempotent : forall t net w,
    run (set t;; set t) net w = run (set t) net w;
  clear_idempotent : forall net w,
    run (clear;; clear) net w = run clear net w;
  set_replaces : forall t t' net w,
    run (set t;; set t') net w = run (set t') net w;
  set_one_key : forall t net w k,
    k <> key -> storage (run (set t) net w) !! k = storage w !! k
}.

(** What a logout does to the world: it returns, no request leaves the
    client, so that the server answers every later request as it would have
    without the logout; the token's storage key is removed and nothing else
    of the storage changes, the next [get()] is absent and the gate is
    [Anonymous]. *)
Record LocalLogout {S : Type} (key : string) (logout : Eff S unit)
    (gate : World S -> SessionGate) : Prop := {
  logout_returns : forall net w, (logout net w).1 = Returned ();
  logout_sends_nothing : forall net w, sent (run logout net w) = sent w;
  logout_server_unaffected : forall (net : Network) w req,
    net (sent (run logout net w)) req = net (sent w) req;
  logout_clears : forall net w,
    storage (run logout net w) = removeItem key (storage w);
  logout_then_get : forall net w, getItem key (storage (run logout net w)) = JNull;
  logout_gate : forall net w, gate (run logout net w) = Anonymous
}.

(** ** Pages, navigation bars and registration forms *)

(** What the router shows at a location. *)
Inductive Page : Type :=
  | LoginPage
  | RegisterPage
  | DashboardPage
  | TransactionsPage
  | Redirect (to : string)
  | NoMatch.

#[global] Instance Page_eq_dec : EqDecision Page.
Proof. solve_decision. Defined.

(** An entry of a navigation bar. *)
Inductive NavItem : Type :=
  | NavLink (to label : string)
  | NavButton (label : string).

(** The target of an entry that is a link. *)
Definition link_target (i : NavItem) : option string :=
  match i with
  | NavLink to _ => Some to
  | NavButton _ => None
  end.

(** Following the redirect a page may be. *)
Definition settle (app : string -> Page) (path : string) : Page :=
  match app path with
  | Redirect to => app to
  | page => page
  end.

(** The first bundle of [server/index.js]: [App.tsx], [Navbar.tsx] and
    [Register.tsx].  Locations are compared as the route paths are written. *)
Module TokenPages.

(** [App]: the [Routes] table. *)
Definition App (u : TokenApp.Ui) (path : string) : Page :=
  if String.eqb path "/" then LoginPage
  else if String.eqb path "/register" then RegisterPage
  else if String.eqb path "/dashboard" then
    match TokenApp.ProtectedRoute u with
    | Children => DashboardPage
    | Navigate to => Redirect to
    | LoginView => LoginPage
    end
  else NoMatch.

(** [Navbar] *)
Definition Navbar (u : TokenApp.Ui) : list NavItem :=
  NavLink "/" "Hashers Marketplace" ::
  if truthy (TokenApp.token u) then
    [NavLink "/dashboard" "Dashboard"; NavButton "Logout"]
  else
    [NavLink "/" "Login"; NavLink "/register" "Register"].

(** State of [Register]: its error and the router location. *)
Record RegisterUi : Type := mkRegisterUi {
  error : JsVal;
  location : string
}.

Definition register_request (name email password : string) : Request :=
  mkRequest "http://localhost:5000/api/users/register" POST
    [("Content-Type", "application/json")]
    [("name", FStr name); ("email", FStr email); ("password", FStr password)].

(** [Register.handleSubmit]; the form fields are the handler's arguments. *)
Definition Register_handleSubmit (name email password : string) : Eff RegisterUi unit :=
  try_catch
    (response ← fetch (register_request name email password);
     data ← response_json response;
     if ok response then
       set_ui (fun u => mkRegisterUi (error u) "/")
     else
       message ← prop message_field data;
       set_ui (fun u => mkRegisterUi message (location u)))
    (set_ui (fun u =>
       mkRegisterUi (JStr "An error occurred. Please try again.") (location u))).

End TokenPages.

(** The second bundle of [server/index.js]: [App.tsx] and [Register.tsx]. *)
Module PersistPages.

(** [App]: the [Routes] table, with its catch-all route. *)
Definition App (u : PersistApp.Ui) (path : string) : Page :=
  if String.eqb path "/login" then LoginPage
  else if String.eqb path "/register" then RegisterPage
  else if String.eqb path "/dashboard" then
    match PersistApp.ProtectedRoute u with
    | Children => DashboardPage
    | Navigate to => Redirect to
    | LoginView => LoginPage
    end
  else if String.eqb path "/transactions" then
    match PersistApp.ProtectedRoute u with
    | Children => TransactionsPage
    | Navigate to => Redirect to
    | LoginView => LoginPage
    end
  else Redirect "/login".

(** State of [Register]: the three fields and the two messages. *)
Record RegisterUi : Type := mkRegisterUi {
  username : string;
  email : string;
  password : string;
  error : JsVal;
  success : JsVal
}.

Definition register_request (username email password : string) : Request :=
  mkRequest "http://localhost:5000/api/users/register" POST
    [("Content-Type", "application/json")]
    [("username", FStr username); ("email", FStr email); ("password", FStr password)].

(** [Register.handleSubmit] *)
Definition Register_handleSubmit : Eff RegisterUi unit :=
  u ← get_ui;
  try_catch
    (response ← fetch (register_request (username u) (email u) (password u));
     data ← response_json response;
     if ok response then
       set_ui (fun u => mkRegisterUi (username u) (email u) (password u) (error u)
                          (JStr "Registration successful. You can now log in."));;
       set_ui (fun u => mkRegisterUi "" (email u) (password u) (error u) (success u));;
       set_ui (fun u => mkRegisterUi (username u) "" (password u) (error u) (success u));;
       set_ui (fun u => mkRegisterUi (username u) (email u) "" (error u) (success u));;
       set_ui (fun u => mkRegisterUi (username u) (email u) (password u) (JStr "") (success u))
     else
       message ← prop message_field data;
       set_ui (fun u => mkRegisterUi (username u) (email u) (password u)
                          (js_or message (JStr "Registration failed"))
                          (success u)))
    (set_ui (fun u => mkRegisterUi (username u) (email u) (password u)
                        (JStr "An error occurred. Please try again.") (success u))).

End PersistPages.

(** The bundle of [unnamed/part_000]: its two [App.tsx] and [Navbar.tsx]. *)
Module AxiosPages.

(** The earlier [App]: the dashboard is a plain route. *)
Definition App_unguarded (u : AxiosApp.Ui) (path : string) : Page :=
  if String.eqb path "/" then DashboardPage
  else if String.eqb path "/login" then LoginPage
  else if String.eqb path "/register" then RegisterPage
  else if String.eqb path "/dashboard" then DashboardPage
  else NoMatch.

(** The later [App]: the dashboard is behind [ProtectedRoute], which shows
    the login form in place. *)
Definition App (u : AxiosApp.Ui) (path : string) : Page :=
  if String.eqb path "/" then LoginPage
  else if String.eqb path "/register" then RegisterPage
  else if String.eqb path "/dashboard" then
    match AxiosApp.ProtectedRoute u with
    | Children => DashboardPage
    | Navigate to => Redirect to
    | LoginView => LoginPage
    end
  else NoMatch.

(** [Navbar] *)
Definition Navbar (u : AxiosApp.Ui) : list NavItem :=
  NavLink "/" "Hashers Marketplace" ::
  if AxiosApp.isAuthenticated u then
    [NavLink "/dashboard" "Dashboard"; NavButton "Logout"]
  else
    [NavLink "/login" "Login"; NavLink "/register" "Register"].

End AxiosPages.

(** ** Sessions as sequences of user events *)

(** Handlers run one after the other, each to its end; a handler that throws
    does not keep the next event from being handled. *)
Fixpoint run_all {S} (events : list (Eff S unit)) (net : Network) (w : World S) : World S :=
  match events with
  | [] => w
  | e :: rest => run_all rest net (run e net w)
  end.

(** What a user can set off in each bundle. *)
Inductive TokenEvent : Type :=
  | TokenSubmitLogin (email password : string)
  | TokenLogout
  | TokenCall (c : TokenApp.ProtectedCall).

Definition token_handler (e : TokenEvent) : Eff TokenApp.Ui unit :=
  match e with
  | TokenSubmitLogin email password => TokenApp.Login_handleSubmit email password
  | TokenLogout => TokenApp.logout
  | TokenCall c => TokenApp.perform c
  end.

Inductive PersistEvent : Type :=
  | PersistSubmitLogin (email password : string)
  | PersistLogout
  | PersistCall (c : PersistApp.ProtectedCall).

Definition persist_handler (e : PersistEvent) : Eff PersistApp.Ui unit :=
  match e with
  | PersistSubmitLogin email password => PersistApp.Login_handleSubmit email password
  | PersistLogout => PersistApp.logout
  | PersistCall c => PersistApp.perform c
  end.

Inductive AxiosEvent : Type :=
  | AxiosSubmitLogin (email password : string)
  | AxiosSubmitRegister (username email password : string)
  | AxiosLogout
  | AxiosCall (c : AxiosApp.ProtectedCall).

Definition axios_handler (e : AxiosEvent) : Eff AxiosApp.Ui unit :=
  match e with
  | AxiosSubmitLogin email password => AxiosApp.Login_handleSubmit email password
  | AxiosSubmitRegister username email password =>
      AxiosApp.Register_handleSubmit username email password
  | AxiosLogout => AxiosApp.logout
  | AxiosCall c => AxiosApp.perform c
  end.

(** The worlds a client reaches from its start over the storage [st]. *)
Definition token_session (st : Storage) (path : string)
    (events : list TokenEvent) (net : Network) : World TokenApp.Ui :=
  run_all (map token_handler events) net (TokenApp.AuthProvider st path).

Definition persist_session (st : Storage)
    (events : list PersistEvent) (net : Network) : World PersistApp.Ui :=
  run_all (map persist_handler events) net (PersistApp.AuthProvider st).

Definition axios_session (st : Storage) (path : string)
    (events : list AxiosEvent) (net : Network) : World AxiosApp.Ui :=
  run_all (map axios_handler events) net (AxiosApp.AuthProvider st path).

(** How far provider and storage agree in the worlds of a session. *)
Definition token_agreement (w : World TokenApp.Ui) : Prop :=
  getItem "authToken" (storage w) = TokenApp.token (ui w)
  \/ getItem "authToken" (storage w) = JStr (toString (TokenApp.token (ui w))).

Definition persist_agreement (w : World PersistApp.Ui) : Prop :=
  (truthy (PersistApp.token (ui w)) = true
   /\ getItem "token" (storage w) = PersistApp.token (ui w))
  \/ (truthy (PersistApp.token (ui w)) = false
      /\ truthy (getItem "token" (storage w)) = false).

Definition axios_agreement (w : World AxiosApp.Ui) : Prop :=
  (truthy (getItem "token" (storage w)) = true -> AxiosApp.isAuthenticated (ui w) = true)
  /\ (AxiosApp.isAuthenticated (ui w) = true -> is_Some (storage w !! "token")).

(** The request a protected call of the axios bundle sends. *)
Definition axios_call_request (c : AxiosApp.ProtectedCall) : Request :=
  match c with
  | AxiosApp.CallLoadItems => AxiosApp.items_request
  | AxiosApp.CallAddItem n d p i => AxiosApp.add_item_request n d p i
  | AxiosApp.CallLoadTransactions => AxiosApp.transactions_request
  end.

(** A login answered 200 whose body has no [token] field. *)
Definition tokenless_200 : Network :=
  fun _ _ => Resolved (mkResponse 200 (JsonValue (mkJson JUndefined (JStr "welcome") []))).

(** ** Storage and JavaScript values *)

Lemma getItem_setItem key v st :
  getItem key (setItem key v st) = JStr (toString v).
Proof. unfold getItem, setItem. by rewrite lookup_insert_eq. Qed.

Lemma getItem_removeItem key st :
  getItem key (removeItem key st) = JNull.
Proof. unfold getItem, removeItem. by rewrite lookup_delete_eq. Qed.

Lemma setItem_setItem key v v' st :
  setItem key v' (setItem key v st) = setItem key v' st.
Proof. unfold setItem. by rewrite insert_insert_eq. Qed.

Lemma removeItem_setItem key v st :
  removeItem key (setItem key v st) = removeItem key st.
Proof. unfold removeItem, setItem. by rewrite delete_insert_eq. Qed.

Lemma removeItem_removeItem key st :
  removeItem key (removeItem key st) = removeItem key st.
Proof. unfold removeItem. apply delete_delete_eq. Qed.

Lemma setItem_removeItem key v st :
  setItem key v (removeItem key st) = setItem key v st.
Proof. unfold removeItem, setItem. by rewrite insert_delete_eq. Qed.

Lemma truthy_JStr s : truthy (JStr s) = true <-> s <> "".
Proof.
  simpl. destruct (String.eqb_spec s ""); simpl; split; congruence.
Qed.

Lemma truthy_is_nonempty v :
  truthy v = true <-> exists s, v = JStr s /\ s <> "".
Proof.
  destruct v as [| |s]; simpl.
  - split; [congruence | intros (s & ? & _); congruence].
  - split; [congruence | intros (s & ? & _); congruence].
  - fold (truthy (JStr s)). rewrite truthy_JStr. split.
    + intros. by exists s.
    + by intros (s' & [= ->] & ?).
Qed.

Lemma getItem_truthy key st :
  truthy (getItem key st) = true <-> exists t, st !! key = Some t /\ t <> "".
Proof.
  rewrite truthy_is_nonempty. unfold getItem. destruct (st !! key) as [t|].
  - split; intros (s & E & ?); simplify_eq; by eexists.
  - split; intros (s & E & ?); congruence.
Qed.

(** Unfolding the effect layer down to worlds. *)
Ltac eff :=
  repeat progress
    (unfold new_requests, run, mbind, mret, Eff_bind, Eff_ret, try_catch, fetch, axios,
       response_json, prop, rows_of, throw, get_ui, set_ui,
       localStorage_getItem, localStorage_setItem, localStorage_removeItem in *;
     simpl in *).

(** ** The session store (C5) *)

Lemma TokenApp_store_laws :
  SessionStoreLaws "authToken" TokenApp.login TokenApp.logout (fun _ => True).
Proof.
  split; intros; unfold TokenApp.login, TokenApp.logout; eff.
  - apply getItem_setItem.
  - apply getItem_removeItem.
  - by rewrite setItem_setItem.
  - by rewrite removeItem_removeItem.
  - by rewrite setItem_setItem.
  - unfold setItem. by rewrite lookup_insert_ne.
Qed.

Lemma PersistApp_store_laws :
  SessionStoreLaws "token" PersistApp.setAndPersistToken PersistApp.logout
    (fun t => t <> "").
Proof.
  split; intros; unfold PersistApp.logout, PersistApp.setAndPersistToken; eff.
  - apply truthy_JStr in H. simpl in H. rewrite H. simpl. apply getItem_setItem.
  - apply getItem_removeItem.
  - destruct (truthy t); simpl;
      by rewrite ?setItem_setItem, ?removeItem_removeItem.
  - by rewrite removeItem_removeItem.
  - destruct (truthy t), (truthy t'); simpl;
      by rewrite ?setItem_setItem, ?removeItem_removeItem,
                 ?removeItem_setItem, ?setItem_removeItem.
  - destruct (truthy t); simpl; unfold setItem, removeItem;
      by rewrite ?lookup_insert_ne, ?lookup_delete_ne.
Qed.

(** C5, amended: in both providers of [server/index.js], [set(t)] followed by
    [get()] returns exactly [t] for every non-empty token string [t] (for
    every string in the first bundle), [clear()] followed by [get()] returns
    absent, [set] and [clear] are idempotent, a new token replaces the stored
    one and only the one storage key is written; [setAndPersistToken] treats
    the empty string as [clear]. *)
Theorem C5_session_store_laws :
  SessionStoreLaws "authToken" TokenApp.login TokenApp.logout (fun _ => True)
  /\ SessionStoreLaws "token" PersistApp.setAndPersistToken PersistApp.logout
       (fun t => t <> "")
  /\ (forall net w,
        storage (run (PersistApp.setAndPersistToken (JStr "")) net w)
        = storage (run PersistApp.logout net w)).
Proof.
  split; [apply TokenApp_store_laws|].
  split; [apply PersistApp_store_laws|].
  intros. unfold PersistApp.logout, PersistApp.setAndPersistToken. eff. reflexivity.
Qed.

(** The round trip of C5 on a concrete token, in both bundles. *)
Lemma C5_session_store_witness :
  getItem "token"
    (storage (run (PersistApp.setAndPersistToken (JStr "abc.def")) (fun _ _ => Rejected)
                  (PersistApp.AuthProvider ∅)))
  = JStr "abc.def".
Proof.
  apply (set_then_get _ _ _ _ (proj1 (proj2 C5_session_store_laws))).
  discriminate.
Defined.

(** C5 as stated fails: [setAndPersistToken] of the empty token string
    removes the stored item, so the following [get()] returns absent. *)
Lemma C5_empty_token_is_not_stored :
  ~ (forall (t : string) (net : Network) (w : World PersistApp.Ui),
       getItem "token" (storage (run (PersistApp.setAndPersistToken (JStr t)) net w))
       = JStr t).
Proof.
  intros H.
  specialize (H "" (fun _ _ => Rejected) (PersistApp.AuthProvider ∅)).
  vm_compute in H. discriminate H.
Qed.

(** ** Logout (C8) *)

(** C8: in the three bundles logout sends no request to the server, whose
    answers to later requests are therefore unchanged, and only clears the
    session store, after which [get()] is absent and the gate is
    [Anonymous]; [server/index.js] itself registers two routes, registration
    and post creation, and no logout endpoint. *)
Theorem C8_logout_is_client_side :
  LocalLogout "authToken" TokenApp.logout TokenApp.gate
  /\ LocalLogout "token" PersistApp.logout PersistApp.gate
  /\ LocalLogout "token" AxiosApp.logout AxiosApp.gate
  /\ (forall authRoutes userRoutes postRoutes m p stages,
        Server.Route m p stages ∈ Server.app authRoutes userRoutes postRoutes ->
        m = POST /\ (p = ["auth"; "register"] \/ p = ["posts"])).
Proof.
  repeat split; intros;
    try (unfold TokenApp.logout, PersistApp.logout, PersistApp.setAndPersistToken,
           AxiosApp.logout, AxiosApp.api_logout; eff;
         first [reflexivity | apply getItem_removeItem]).
  - unfold Server.app in H. simpl in H.
    repeat (apply elem_of_cons in H as [H|H]; [by simplify_eq|]).
    by apply elem_of_nil in H.
  - unfold Server.app in H. simpl in H.
    repeat (apply elem_of_cons in H as [H|H];
            [first [discriminate H | simplify_eq; (by left) || (by right)]|]).
    by apply elem_of_nil in H.
Qed.

(** ** The [useAuth] hook (C10) *)

(** C10, amended: in the two bundles of [server/index.js], [useAuth] called
    outside every [AuthProvider] throws "useAuth must be used within an
    AuthProvider" and inside one returns the provided context; in the bundle
    of [unnamed/part_000] the context has a default value and [useAuth]
    called outside every provider returns that default, whose flag is [false]. *)
Theorem C10_useAuth_outside_provider :
  TokenApp.useAuth [] = Thrown (Error "useAuth must be used within an AuthProvider")
  /\ PersistApp.useAuth [] = Thrown (Error "useAuth must be used within an AuthProvider")
  /\ (forall c enclosing, TokenApp.useAuth (c :: enclosing) = Returned c)
  /\ (forall c enclosing, PersistApp.useAuth (c :: enclosing) = Returned c)
  /\ AxiosApp.useAuth [] = Returned AxiosApp.default_context
  /\ AxiosApp.ctx_isAuthenticated AxiosApp.default_context = false.
Proof. repeat split. Qed.

(** C10 as stated fails for the hook of [unnamed/part_000]: outside every
    provider it throws nothing. *)
Lemma C10_default_context_is_returned :
  ~ (exists e, AxiosApp.useAuth [] = Thrown e).
Proof. intros [e H]. discriminate H. Qed.

(** ** The gate at process start (C4) *)

Lemma TokenApp_gate_truthy w :
  TokenApp.gate w = Authenticated <-> truthy (TokenApp.token (ui w)) = true.
Proof.
  unfold TokenApp.gate, TokenApp.ProtectedRoute.
  destruct (truthy _); simpl; split; congruence.
Qed.

Lemma PersistApp_gate_truthy w :
  PersistApp.gate w = Authenticated <-> truthy (PersistApp.token (ui w)) = true.
Proof.
  unfold PersistApp.gate, PersistApp.ProtectedRoute.
  destruct (truthy _); simpl; split; congruence.
Qed.

Lemma AxiosApp_gate_flag w :
  AxiosApp.gate w = Authenticated <-> AxiosApp.isAuthenticated (ui w) = true.
Proof.
  unfold AxiosApp.gate, AxiosApp.ProtectedRoute.
  destruct (AxiosApp.isAuthenticated _); simpl; split; congruence.
Qed.

Lemma gate_two_states (g : SessionGate) : g = Anonymous <-> g <> Authenticated.
Proof. destruct g; split; congruence. Qed.

Lemma TokenApp_initial_gate st path :
  TokenApp.gate (TokenApp.AuthProvider st path) = Authenticated
  <-> exists t, st !! "authToken" = Some t /\ t <> "".
Proof. rewrite TokenApp_gate_truthy. apply getItem_truthy. Qed.

Lemma PersistApp_initial_gate st :
  PersistApp.gate (PersistApp.AuthProvider st) = Authenticated
  <-> exists t, st !! "token" = Some t /\ t <> "".
Proof. rewrite PersistApp_gate_truthy. apply getItem_truthy. Qed.

Lemma AxiosApp_initial_gate st path :
  AxiosApp.gate (AxiosApp.AuthProvider st path) = Authenticated
  <-> exists t, st !! "token" = Some t /\ t <> "".
Proof. rewrite AxiosApp_gate_flag. apply getItem_truthy. Qed.

(** What a login that the server accepts leaves behind, bundle by bundle. *)
Lemma TokenApp_login_success net w email password r d :
  net (sent w) (TokenApp.login_request email password) = Resolved r ->
  ok r = true -> json r = JsonValue d ->
  run (TokenApp.Login_handleSubmit email password) net w
  = mkWorld (setItem "authToken" (token_field d) (storage w))
            (sent w ++ [TokenApp.login_request email password])
            (TokenApp.navigate "/dashboard" (TokenApp.setToken (token_field d) (ui w))).
Proof.
  intros Hnet Hok Hjson. unfold TokenApp.Login_handleSubmit, TokenApp.login. eff.
  rewrite Hnet. simpl. rewrite Hjson. simpl. rewrite Hok. reflexivity.
Qed.

Lemma PersistApp_login_success net w email password r d t :
  net (sent w) (PersistApp.login_request email password) = Resolved r ->
  ok r = true -> json r = JsonValue d -> token_field d = JStr t -> t <> "" ->
  run (PersistApp.Login_handleSubmit email password) net w
  = mkWorld (setItem "token" (JStr t) (storage w))
            (sent w ++ [PersistApp.login_request email password])
            (PersistApp.setToken (JStr t) (ui w)).
Proof.
  intros Hnet Hok Hjson Htok Ht.
  unfold PersistApp.Login_handleSubmit, PersistApp.setAndPersistToken. eff.
  rewrite Hnet. simpl. rewrite Hjson. simpl. rewrite Hok, Htok.
  by rewrite (proj2 (truthy_JStr t) Ht).
Qed.

Lemma AxiosApp_login_success net w email password r d :
  net (sent w) (AxiosApp.login_request email password) = Resolved r ->
  ok r = true -> json r = JsonValue d ->
  run (AxiosApp.Login_handleSubmit email password) net w
  = mkWorld (setItem "token" (token_field d) (storage w))
            (sent w ++ [AxiosApp.login_request email password])
            (AxiosApp.navigate "/dashboard" (AxiosApp.setIsAuthenticated true (ui w))).
Proof.
  intros Hnet Hok Hjson.
  unfold AxiosApp.Login_handleSubmit, AxiosApp.login, AxiosApp.api_login. eff.
  rewrite Hnet. simpl. rewrite Hok. simpl. rewrite Hjson. reflexivity.
Qed.

(** C4, amended: at process start the gate is [Authenticated] if and only if
    the session store holds a non-empty token string, and [Anonymous]
    otherwise (an empty stored string counts as no token); after a login that
    stored a non-empty token, a client started afresh over the same storage
    computes [Authenticated] having sent no request. *)
Theorem C4_gate_follows_store_at_start :
  (forall st path,
     (TokenApp.gate (TokenApp.AuthProvider st path) = Authenticated
      <-> exists t, st !! "authToken" = Some t /\ t <> "")
     /\ (TokenApp.gate (TokenApp.AuthProvider st path) = Anonymous
         <-> ~ exists t, st !! "authToken" = Some t /\ t <> ""))
  /\ (forall st,
        (PersistApp.gate (PersistApp.AuthProvider st) = Authenticated
         <-> exists t, st !! "token" = Some t /\ t <> "")
        /\ (PersistApp.gate (PersistApp.AuthProvider st) = Anonymous
            <-> ~ exists t, st !! "token" = Some t /\ t <> ""))
  /\ (forall st path,
        (AxiosApp.gate (AxiosApp.AuthProvider st path) = Authenticated
         <-> exists t, st !! "token" = Some t /\ t <> "")
        /\ (AxiosApp.gate (AxiosApp.AuthProvider st path) = Anonymous
            <-> ~ exists t, st !! "token" = Some t /\ t <> ""))
  /\ (forall net w email password r d t path,
        net (sent w) (TokenApp.login_request email password) = Resolved r ->
        ok r = true -> json r = JsonValue d -> token_field d = JStr t -> t <> "" ->
        let reloaded :=
          TokenApp.AuthProvider
            (storage (run (TokenApp.Login_handleSubmit email password) net w)) path in
        TokenApp.gate reloaded = Authenticated /\ sent reloaded = [])
  /\ (forall net w email password r d t,
        net (sent w) (PersistApp.login_request email password) = Resolved r ->
        ok r = true -> json r = JsonValue d -> token_field d = JStr t -> t <> "" ->
        let reloaded :=
          PersistApp.AuthProvider
            (storage (run (PersistApp.Login_handleSubmit email password) net w)) in
        PersistApp.gate reloaded = Authenticated /\ sent reloaded = [])
  /\ (forall net w email password r d t path,
        net (sent w) (AxiosApp.login_request email password) = Resolved r ->
        ok r = true -> json r = JsonValue d -> token_field d = JStr t -> t <> "" ->
        let reloaded :=
          AxiosApp.AuthProvider
            (storage (run (AxiosApp.Login_handleSubmit email password) net w)) path in
        AxiosApp.gate reloaded = Authenticated /\ sent reloaded = []).
Proof.
  repeat apply conj.
  - intros. split; [apply TokenApp_initial_gate|].
    rewrite gate_two_states. by rewrite TokenApp_initial_gate.
  - intros. split; [apply PersistApp_initial_gate|].
    rewrite gate_two_states. by rewrite PersistApp_initial_gate.
  - intros. split; [apply AxiosApp_initial_gate|].
    rewrite gate_two_states. by rewrite AxiosApp_initial_gate.
  - intros * Hnet Hok Hjson Htok Ht reloaded. split; [|reflexivity].
    subst reloaded. rewrite (TokenApp_login_success _ _ _ _ _ _ Hnet Hok Hjson).
    apply TokenApp_initial_gate. exists t. split; [|done].
    simpl. unfold setItem. rewrite Htok. apply lookup_insert_eq.
  - intros * Hnet Hok Hjson Htok Ht reloaded. split; [|reflexivity].
    subst reloaded.
    rewrite (PersistApp_login_success _ _ _ _ _ _ _ Hnet Hok Hjson Htok Ht).
    apply PersistApp_initial_gate. exists t. split; [|done].
    simpl. unfold setItem. apply lookup_insert_eq.
  - intros * Hnet Hok Hjson Htok Ht reloaded. split; [|reflexivity].
    subst reloaded. rewrite (AxiosApp_login_success _ _ _ _ _ _ Hnet Hok Hjson).
    apply AxiosApp_initial_gate. exists t. split; [|done].
    simpl. unfold setItem. rewrite Htok. apply lookup_insert_eq.
Qed.

(** A concrete login and restart for C4: the server answers 200 with the
    token "abc.def", the client is started again over the storage the login
    left, and the gate is [Authenticated]. *)
Lemma C4_login_then_reload_witness :
  let net : Network :=
    fun _ _ => Resolved (mkResponse 200 (JsonValue (mkJson (JStr "abc.def") JUndefined []))) in
  let reloaded :=
    TokenApp.AuthProvider
      (storage (run (TokenApp.Login_handleSubmit "alice@example.com" "correct-horse")
                    net (TokenApp.AuthProvider ∅ "/")))
      "/dashboard" in
  TokenApp.gate reloaded = Authenticated /\ sent reloaded = [].
Proof.
  intros net.
  apply (proj1 (proj2 (proj2 (proj2 C4_gate_follows_store_at_start)))
           net (TokenApp.AuthProvider ∅ "/") "alice@example.com" "correct-horse"
           (mkResponse 200 (JsonValue (mkJson (JStr "abc.def") JUndefined [])))
           (mkJson (JStr "abc.def") JUndefined []) "abc.def" "/dashboard");
    first [reflexivity | discriminate].
Defined.

(** C4 as stated fails: a store whose token key holds the empty string is
    not absent, yet the gate starts [Anonymous]. *)
Lemma C4_empty_stored_token_is_anonymous :
  ~ (forall (st : Storage) (path : string),
       TokenApp.gate (TokenApp.AuthProvider st path) = Authenticated
       <-> getItem "authToken" st <> JNull).
Proof.
  intros H.
  destruct (H {["authToken" := ""]} "/") as [_ H'].
  assert (Hne : getItem "authToken" ({["authToken" := ""]} : Storage) <> JNull)
    by (vm_compute; discriminate).
  specialize (H' Hne). vm_compute in H'. discriminate H'.
Qed.

(** ** Protected calls (C1, C2) *)

(** Case analysis on what the network answers and on the response. *)
Ltac answers net :=
  repeat match goal with
    | |- context [net ?history ?req] =>
        let r := fresh "r" in destruct (net history req) as [|r]; simpl
    | |- context [json ?r] => destruct (json r); simpl
    | |- context [ok ?r] => destruct (ok r); simpl
    end.

(** No protected call of the first bundle touches the storage or the token. *)
Lemma TokenApp_call_frame c net w :
  storage (run (TokenApp.perform c) net w) = storage w
  /\ TokenApp.token (ui (run (TokenApp.perform c) net w)) = TokenApp.token (ui w).
Proof.
  destruct c as [|n d [[|p|p]|] i|]; simpl;
    unfold TokenApp.fetchItems, TokenApp.AddItem_handleSubmit, TokenApp.fetchTransactions;
    eff; answers net; by split.
Qed.

Lemma PersistApp_call_frame c net w :
  storage (run (PersistApp.perform c) net w) = storage w
  /\ PersistApp.token (ui (run (PersistApp.perform c) net w)) = PersistApp.token (ui w).
Proof.
  destruct c; simpl;
    unfold PersistApp.fetchItems, PersistApp.handleDelete,
      PersistApp.AddItem_handleSubmit, PersistApp.fetchTransactions;
    eff; answers net; by split.
Qed.

(** The requests each protected call sends. *)
Lemma TokenApp_call_requests c net w :
  new_requests (TokenApp.perform c) net w =
  match c with
  | TokenApp.CallFetchItems => [TokenApp.items_request (TokenApp.token (ui w))]
  | TokenApp.CallAddItem n d (Some p) i =>
      if bool_decide (p = 0%Z) then []
      else [TokenApp.add_item_request (TokenApp.token (ui w)) n d p i]
  | TokenApp.CallAddItem _ _ None _ => []
  | TokenApp.CallFetchTransactions =>
      [TokenApp.transactions_request (TokenApp.token (ui w))]
  end.
Proof.
  destruct c as [|n d [[|p|p]|] i|]; simpl;
    unfold TokenApp.fetchItems, TokenApp.AddItem_handleSubmit, TokenApp.fetchTransactions;
    eff; answers net;
    first [ apply drop_app_length | by rewrite drop_all ].
Qed.

Lemma PersistApp_call_requests c net w :
  new_requests (PersistApp.perform c) net w =
  match c with
  | PersistApp.CallFetchItems => [PersistApp.items_request (PersistApp.token (ui w))]
  | PersistApp.CallDelete id =>
      [PersistApp.delete_request (getItem "token" (storage w)) id]
  | PersistApp.CallAddItem n d p i =>
      [PersistApp.add_item_request (getItem "token" (storage w)) n d p i]
  | PersistApp.CallFetchTransactions =>
      [PersistApp.transactions_request (PersistApp.token (ui w))]
  end.
Proof.
  destruct c; simpl;
    unfold PersistApp.fetchItems, PersistApp.handleDelete,
      PersistApp.AddItem_handleSubmit, PersistApp.fetchTransactions;
    eff; answers net; apply drop_app_length.
Qed.

Lemma AxiosApp_call_requests c net w :
  new_requests (AxiosApp.perform c) net w =
  match c with
  | AxiosApp.CallLoadItems => [AxiosApp.items_request]
  | AxiosApp.CallAddItem n d p i => [AxiosApp.add_item_request n d p i]
  | AxiosApp.CallLoadTransactions => [AxiosApp.transactions_request]
  end.
Proof.
  destruct c; simpl;
    unfold AxiosApp.loadItems, AxiosApp.fetchItems, AxiosApp.AddItem_handleSubmit,
      AxiosApp.addItem, AxiosApp.reload, AxiosApp.loadTransactions,
      AxiosApp.fetchTransactions;
    eff; answers net; apply drop_app_length.
Qed.






(** C2, amended: in the two bundles of [server/index.js], every request a
    protected call sends while the gate is [Authenticated] and the provider
    agrees with the store carries [Authorization: Bearer <token>] with the
    token the session store holds; the axios service of [unnamed/part_000]
    sends its requests to the protected resources with no [Authorization]
    header. *)
Theorem C2_requests_carry_bearer_token :
  (forall c net w t,
     TokenApp.gate w = Authenticated -> TokenApp_in_sync w ->
     getItem "authToken" (storage w) = JStr t ->
     Forall (fun r => authorization r = Some ("Bearer " +:+ t))
            (new_requests (TokenApp.perform c) net w))
  /\ (forall c net w t,
        PersistApp.gate w = Authenticated -> PersistApp_in_sync w ->
        getItem "token" (storage w) = JStr t ->
        Forall (fun r => authorization r = Some ("Bearer " +:+ t))
               (new_requests (PersistApp.perform c) net w))
  /\ (forall net w,
        new_requests TokenApp.fetchItems net w
        = [TokenApp.items_request (TokenApp.token (ui w))])
  /\ (forall net w,
        new_requests PersistApp.fetchItems net w
        = [PersistApp.items_request (PersistApp.token (ui w))])
  /\ (forall c net w,
        new_requests (AxiosApp.perform c) net w <> []
        /\ Forall (fun r => authorization r = None)
                  (new_requests (AxiosApp.perform c) net w)).
Proof.
  repeat apply conj.
  - intros c net w t Hg Hsync Hget.
    apply TokenApp_gate_truthy in Hg. specialize (Hsync Hg).
    rewrite Hget in Hsync. rewrite TokenApp_call_requests, <- Hsync.
    destruct c as [|n d [p|] i|]; [| case_bool_decide | |];
      repeat constructor.
  - intros c net w t Hg Hsync Hget.
    apply PersistApp_gate_truthy in Hg. specialize (Hsync Hg).
    rewrite Hget in Hsync. rewrite PersistApp_call_requests, <- Hsync, ?Hget.
    destruct c; repeat constructor.
  - apply (TokenApp_call_requests TokenApp.CallFetchItems).
  - apply (PersistApp_call_requests PersistApp.CallFetchItems).
  - intros c net w. rewrite AxiosApp_call_requests.
    split; destruct c; first [discriminate | repeat constructor].
Qed.

(** C2 on the concrete session over "abc.def": the item listing carries
    [Bearer abc.def]. *)
Lemma C2_bearer_token_witness :
  Forall (fun r => authorization r = Some "Bearer abc.def")
         (new_requests (TokenApp.perform TokenApp.CallFetchItems)
                       session_401 TokenApp_open_session).
Proof.
  apply (proj1 C2_requests_carry_bearer_token
           TokenApp.CallFetchItems session_401 TokenApp_open_session "abc.def").
  - reflexivity.
  - intros _. reflexivity.
  - reflexivity.
Defined.

(** C2 as stated fails for the axios service: with a token in the store and
    the gate [Authenticated], [fetchItems] sends no [Authorization] header. *)
Lemma C2_axios_requests_have_no_token :
  ~ (forall (net : Network) (w : World AxiosApp.Ui) (t : string),
       AxiosApp.gate w = Authenticated ->
       getItem "token" (storage w) = JStr t ->
       Forall (fun r => authorization r = Some ("Bearer " +:+ t))
              (new_requests AxiosApp.loadItems net w)).
Proof.
  intros H.
  specialize (H session_401 (AxiosApp.AuthProvider {["token" := "abc.def"]} "/dashboard")
                "abc.def" eq_refl eq_refl).
  rewrite (AxiosApp_call_requests AxiosApp.CallLoadItems) in H.
  apply Forall_cons in H as [H _]. discriminate H.
Qed.

(** ** Failed logins (C9) *)

(** C9: when the login request is answered with a status that is not ok, or
    throws (the request promise or the JSON parsing rejects), the handler
    leaves the storage and the provider's state as they were; the gate does
    not become [Authenticated] unless it already was; only the login error
    message (and the record of the request sent) changes. *)
Theorem C9_failed_login_keeps_session :
  (forall net w email password,
     fetch_login_fails (net (sent w) (TokenApp.login_request email password)) ->
     exists msg,
       run (TokenApp.Login_handleSubmit email password) net w
       = mkWorld (storage w) (sent w ++ [TokenApp.login_request email password])
                 (TokenApp.setLoginError msg (ui w))
       /\ TokenApp.gate (run (TokenApp.Login_handleSubmit email password) net w)
          = TokenApp.gate w)
  /\ (forall net w email password,
        fetch_login_fails (net (sent w) (PersistApp.login_request email password)) ->
        exists msg,
          run (PersistApp.Login_handleSubmit email password) net w
          = mkWorld (storage w) (sent w ++ [PersistApp.login_request email password])
                    (PersistApp.setLoginError msg (ui w))
          /\ PersistApp.gate (run (PersistApp.Login_handleSubmit email password) net w)
             = PersistApp.gate w)
  /\ (forall net w email password,
        axios_login_fails (net (sent w) (AxiosApp.login_request email password)) ->
        run (AxiosApp.Login_handleSubmit email password) net w
        = mkWorld (storage w) (sent w ++ [AxiosApp.login_request email password])
                  (AxiosApp.setLoginError (JStr "Invalid email or password") (ui w))
        /\ AxiosApp.gate (run (AxiosApp.Login_handleSubmit email password) net w)
           = AxiosApp.gate w
        /\ (exists e, (AxiosApp.login email password net w).1 = Thrown e)
        /\ storage (run (AxiosApp.login email password) net w) = storage w
        /\ ui (run (AxiosApp.login email password) net w) = ui w).
Proof.
  repeat apply conj.
  - intros net w email password Hfail.
    unfold fetch_login_fails in Hfail.
    unfold TokenApp.Login_handleSubmit, TokenApp.login. eff.
    destruct (net _ _) as [|r]; simpl.
    { eexists. split; reflexivity. }
    destruct (json r) as [| |d]; simpl.
    + eexists. split; reflexivity.
    + destruct Hfail as [Hok|]; [|done]. rewrite Hok.
      eexists. split; reflexivity.
    + destruct Hfail as [Hok|]; [|done]. rewrite Hok.
      eexists. split; reflexivity.
  - intros net w email password Hfail.
    unfold fetch_login_fails in Hfail.
    unfold PersistApp.Login_handleSubmit, PersistApp.setAndPersistToken. eff.
    destruct (net _ _) as [|r]; simpl.
    { eexists. split; reflexivity. }
    destruct (json r) as [| |d]; simpl.
    + eexists. split; reflexivity.
    + destruct Hfail as [Hok|]; [|done]. rewrite Hok.
      eexists. split; reflexivity.
    + destruct Hfail as [Hok|]; [|done]. rewrite Hok.
      eexists. split; reflexivity.
  - intros net w email password Hfail.
    unfold axios_login_fails in Hfail.
    unfold AxiosApp.Login_handleSubmit, AxiosApp.login, AxiosApp.api_login. eff.
    destruct (net _ _) as [|r]; simpl.
    { repeat split; by eexists. }
    rewrite Hfail. simpl. repeat split; by eexists.
Qed.

(** A login answered with 401 while nobody is logged in. *)
Lemma C9_failed_login_witness :
  exists msg,
    run (TokenApp.Login_handleSubmit "alice@example.com" "wrong") session_401
        (TokenApp.AuthProvider ∅ "/")
    = mkWorld (storage (TokenApp.AuthProvider ∅ "/"))
              (sent (TokenApp.AuthProvider ∅ "/")
               ++ [TokenApp.login_request "alice@example.com" "wrong"])
              (TokenApp.setLoginError msg (ui (TokenApp.AuthProvider ∅ "/")))
    /\ TokenApp.gate
         (run (TokenApp.Login_handleSubmit "alice@example.com" "wrong") session_401
              (TokenApp.AuthProvider ∅ "/"))
       = TokenApp.gate (TokenApp.AuthProvider ∅ "/").
Proof.
  apply (proj1 C9_failed_login_keeps_session).
  left. reflexivity.
Defined.

(** Membership in a list written out. *)
Ltac in_list :=
  repeat first [apply list_elem_of_here | apply list_elem_of_further].

Ltac not_in_list H :=
  repeat (apply elem_of_cons in H as [H|H]; [discriminate H|]);
  by apply elem_of_nil in H.

(** ** Routes and the access guard (C7) *)

Arguments Server.same_segment : simpl never.

Lemma same_segment_lower a seg :
  Server.same_segment a seg = true <-> Server.lower seg = Server.lower a.
Proof. unfold Server.same_segment. rewrite String.eqb_eq. split; congruence. Qed.

(** Two mount paths that differ do not both match a segment. *)
Lemma same_segment_other a b seg :
  Server.lower a <> Server.lower b ->
  Server.same_segment a seg = true -> Server.same_segment b seg = false.
Proof.
  intros Hab Ha. apply same_segment_lower in Ha.
  destruct (Server.same_segment b seg) eqn:Hb; [|done].
  apply same_segment_lower in Hb. congruence.
Qed.

Lemma route_matches_cons a pattern p :
  Server.route_matches (a :: pattern) p
  = match p with
    | [] => false
    | seg :: below => Server.same_segment a seg && Server.route_matches pattern below
    end.
Proof.
  unfold Server.route_matches. destruct p as [|seg below]; simpl; [done|].
  by destruct (Server.same_segment a seg).
Qed.

Lemma elem_of_met passes stages x : x ∈ Server.met passes stages -> x ∈ stages.
Proof.
  induction stages as [|s rest IH]; simpl; [done|].
  intros [->|H]%elem_of_cons; [by left|].
  right. destruct (passes s); [by apply IH|by apply elem_of_nil in H].
Qed.

(** A stage that ends the request is the last one met. *)
Lemma met_stops passes pre g post x :
  passes g = false ->
  x ∈ Server.met passes (pre ++ g :: post) -> x ∈ pre \/ x = g.
Proof.
  intros Hg. induction pre as [|s pre IH]; simpl.
  - rewrite Hg. intros [->|H]%elem_of_cons; [by right|by apply elem_of_nil in H].
  - intros [->|H]%elem_of_cons; [left; by left|].
    destruct (passes s); [|by apply elem_of_nil in H].
    destruct (IH H) as [?|?]; [left; by right|by right].
Qed.

(** The stages on the way of a request to [app], layer by layer. *)
Lemma installed_app (authRoutes userRoutes postRoutes : Server.Router) m p :
  Server.installed (Server.app authRoutes userRoutes postRoutes) m p
  = Server.global_middleware
    ++ match Server.strip ["assets"] p with
       | Some _ => [Server.ExpressStatic]
       | None => []
       end
    ++ (if bool_decide (m = POST) && Server.route_matches ["auth"; "register"] p
        then [Server.UploadSingle "picture"; Server.Register] else [])
    ++ (if bool_decide (m = POST) && Server.route_matches ["posts"] p
        then [Server.VerifyToken; Server.UploadSingle "picture"; Server.CreatePost]
        else [])
    ++ match Server.strip ["auth"] p with
       | Some below => default [] (authRoutes m below)
       | None => []
       end
    ++ match Server.strip ["users"] p with
       | Some below => default [] (userRoutes m below)
       | None => []
       end
    ++ match Server.strip ["posts"] p with
       | Some below => default [] (postRoutes m below)
       | None => []
       end.
Proof.
  unfold Server.app, Server.global_middleware.
  cbn [map List.app Server.installed Server.layer_stages].
  replace (Server.strip [] p) with (Some p) by (by destruct p).
  cbn [List.app]. by rewrite app_nil_r.
Qed.

(** The same for a path whose first segment is known. *)
Lemma installed_app_cons (authRoutes userRoutes postRoutes : Server.Router) m seg below :
  Server.installed (Server.app authRoutes userRoutes postRoutes) m (seg :: below)
  = Server.global_middleware
    ++ (if Server.same_segment "assets" seg then [Server.ExpressStatic] else [])
    ++ (if bool_decide (m = POST) && Server.same_segment "auth" seg
           && Server.route_matches ["register"] below
        then [Server.UploadSingle "picture"; Server.Register] else [])
    ++ (if bool_decide (m = POST) && Server.same_segment "posts" seg
           && Server.route_matches [] below
        then [Server.VerifyToken; Server.UploadSingle "picture"; Server.CreatePost]
        else [])
    ++ (if Server.same_segment "auth" seg then default [] (authRoutes m below) else [])
    ++ (if Server.same_segment "users" seg then default [] (userRoutes m below) else [])
    ++ (if Server.same_segment "posts" seg then default [] (postRoutes m below) else []).
Proof.
  rewrite installed_app, !route_matches_cons. cbn [Server.strip].
  replace (Server.strip [] below) with (Some below) by (by destruct below).
  rewrite !andb_assoc.
  by repeat destruct (Server.same_segment _ seg).
Qed.

Lemma guard_not_global : Server.VerifyToken ∉ Server.global_middleware.
Proof. intros H. not_in_list H. Qed.

(** Settling which mount path a first segment matches. *)
Ltac other_segment H name :=
  lazymatch type of H with
  | Server.same_segment ?a ?seg = true =>
      try rewrite (same_segment_other a name seg ltac:(vm_compute; discriminate) H)
  end.

Ltac first_segment H :=
  rewrite ?H;
  other_segment H "assets"; other_segment H "auth"; other_segment H "users";
  other_segment H "posts"; other_segment H "register"; other_segment H "login".

(** What [server/index.js] itself decides, whatever the mounted routers
    hold: post creation runs behind the guard, registration and the static
    assets have no guard on their way. *)
Lemma registered_routes (authRoutes userRoutes postRoutes : Server.Router)
    (passes : Server.Stage -> bool) :
  (forall p,
     Server.route_matches ["posts"] p = true ->
     (exists later,
        Server.installed (Server.app authRoutes userRoutes postRoutes) POST p
        = Server.global_middleware
          ++ [Server.VerifyToken; Server.UploadSingle "picture"; Server.CreatePost]
          ++ later)
     /\ (passes Server.VerifyToken = false ->
         (Server.UploadSingle "picture"
            ∉ Server.traverse passes (Server.app authRoutes userRoutes postRoutes) POST p)
         /\ (Server.CreatePost
               ∉ Server.traverse passes (Server.app authRoutes userRoutes postRoutes) POST p)))
  /\ (forall p,
        Server.route_matches ["auth"; "register"] p = true ->
        (exists later,
           Server.installed (Server.app authRoutes userRoutes postRoutes) POST p
           = Server.global_middleware
             ++ [Server.UploadSingle "picture"; Server.Register] ++ later)
        /\ (passes (Server.UploadSingle "picture") = false
            \/ passes Server.Register = false ->
            Server.VerifyToken
              ∉ Server.traverse passes (Server.app authRoutes userRoutes postRoutes) POST p))
  /\ (forall m seg below,
        Server.same_segment "assets" seg = true ->
        Server.installed (Server.app authRoutes userRoutes postRoutes) m (seg :: below)
        = Server.global_middleware ++ [Server.ExpressStatic]
        /\ (Server.VerifyToken
              ∉ Server.traverse passes (Server.app authRoutes userRoutes postRoutes)
                  m (seg :: below))).
Proof.
  repeat apply conj.
  - intros p Hp. rewrite route_matches_cons in Hp.
    destruct p as [|seg below]; [done|]. apply andb_true_iff in Hp as [Hseg Hbelow].
    assert (Hinst :
      Server.installed (Server.app authRoutes userRoutes postRoutes) POST (seg :: below)
      = Server.global_middleware
        ++ [Server.VerifyToken; Server.UploadSingle "picture"; Server.CreatePost]
        ++ default [] (postRoutes POST below)).
    { rewrite installed_app_cons. first_segment Hseg. rewrite Hbelow.
      rewrite bool_decide_eq_true_2 by done. simpl. by rewrite ?app_nil_r. }
    split; [by eexists|].
    intros Hguard. unfold Server.traverse. rewrite Hinst.
    split; intros [Hin| [=]]%(met_stops _ _ _ _ _ Hguard); not_in_list Hin.
  - intros p Hp. rewrite route_matches_cons in Hp.
    destruct p as [|seg below]; [done|]. apply andb_true_iff in Hp as [Hseg Hbelow].
    assert (Hinst :
      Server.installed (Server.app authRoutes userRoutes postRoutes) POST (seg :: below)
      = Server.global_middleware
        ++ [Server.UploadSingle "picture"; Server.Register]
        ++ default [] (authRoutes POST below)).
    { rewrite installed_app_cons. first_segment Hseg. rewrite Hbelow.
      rewrite bool_decide_eq_true_2 by done. simpl. by rewrite ?app_nil_r. }
    split; [by eexists|].
    intros [Hends|Hends]; unfold Server.traverse; rewrite Hinst.
    + intros [Hin| [=]]%(met_stops _ _ _ _ _ Hends). not_in_list Hin.
    + change (Server.global_middleware
              ++ [Server.UploadSingle "picture"; Server.Register]
              ++ default [] (authRoutes POST below))
        with ((Server.global_middleware ++ [Server.UploadSingle "picture"])
              ++ Server.Register :: default [] (authRoutes POST below)).
      intros [Hin| [=]]%(met_stops _ _ _ _ _ Hends). not_in_list Hin.
  - intros m seg below Hseg.
    assert (Hinst :
      Server.installed (Server.app authRoutes userRoutes postRoutes) m (seg :: below)
      = Server.global_middleware ++ [Server.ExpressStatic]).
    { rewrite installed_app_cons. first_segment Hseg.
      by rewrite !andb_false_r. }
    split; [done|].
    unfold Server.traverse. rewrite Hinst. intros Hin%elem_of_met. not_in_list Hin.
Qed.

(** C7.  The access guard is on the way of every request for a protected
    resource and of no public one. [server/index.js] decides three of the
    routes itself, for any routers mounted beside them: [POST /posts] runs
    [verifyToken] first, and a request the guard does not pass on reaches
    neither the upload nor [createPost]; [POST /auth/register] runs the upload
    and [register] with no guard before them, and meets none when either of
    the two ends the request, as [register] does by answering; a request below
    [/assets] has the global middleware and [express.static] on its way and
    nothing else. Paths match without regard to case and with or without a
    closing slash, as Express matches them. The routers of [routes/auth.js]
    and [routes/posts.js] are not among the sources and enter through their
    contracts: when login is public in the first, [POST /auth/login] has on
    its way the global middleware and the stages of the router's login route,
    and none of them is the guard; when every route of the second is guarded,
    a request below [/posts], whatever its method, has the guard on its way as
    soon as anything serves it, and meets nothing but the global middleware
    and the guard when the guard does not pass it on. The server has no route
    for items or transactions: a request to [/items], [/transactions] or
    [/api/...] has the global middleware on its way and nothing else. *)
Theorem C7_guard_on_protected_routes_only
    (authRoutes userRoutes postRoutes : Server.Router)
    (passes : Server.Stage -> bool)
    (Hlogin : Server.login_is_public authRoutes)
    (Hposts : Server.every_route_guarded postRoutes) :
  (* post creation *)
  (forall p,
     Server.route_matches ["posts"] p = true ->
     (exists later,
        Server.installed (Server.app authRoutes userRoutes postRoutes) POST p
        = Server.global_middleware
          ++ [Server.VerifyToken; Server.UploadSingle "picture"; Server.CreatePost]
          ++ later)
     /\ (passes Server.VerifyToken = false ->
         (Server.UploadSingle "picture"
            ∉ Server.traverse passes (Server.app authRoutes userRoutes postRoutes) POST p)
         /\ (Server.CreatePost
               ∉ Server.traverse passes (Server.app authRoutes userRoutes postRoutes) POST p)))
  (* every request below /posts *)
  /\ (forall m seg below,
        Server.same_segment "posts" seg = true ->
        (Server.installed (Server.app authRoutes userRoutes postRoutes) m (seg :: below)
         <> Server.global_middleware ->
         exists later,
           Server.installed (Server.app authRoutes userRoutes postRoutes) m (seg :: below)
           = Server.global_middleware ++ Server.VerifyToken :: later)
        /\ (passes Server.VerifyToken = false ->
            forall stage,
              stage ∈ Server.traverse passes (Server.app authRoutes userRoutes postRoutes)
                        m (seg :: below) ->
              stage ∈ Server.global_middleware \/ stage = Server.VerifyToken))
  (* registration *)
  /\ (forall p,
        Server.route_matches ["auth"; "register"] p = true ->
        (exists later,
           Server.installed (Server.app authRoutes userRoutes postRoutes) POST p
           = Server.global_middleware
             ++ [Server.UploadSingle "picture"; Server.Register] ++ later)
        /\ (passes (Server.UploadSingle "picture") = false
            \/ passes Server.Register = false ->
            Server.VerifyToken
              ∉ Server.traverse passes (Server.app authRoutes userRoutes postRoutes) POST p))
  (* static assets *)
  /\ (forall m seg below,
        Server.same_segment "assets" seg = true ->
        Server.installed (Server.app authRoutes userRoutes postRoutes) m (seg :: below)
        = Server.global_middleware ++ [Server.ExpressStatic]
        /\ Server.guarded
             (Server.installed (Server.app authRoutes userRoutes postRoutes) m (seg :: below))
           = false)
  (* login *)
  /\ (forall p,
        Server.route_matches ["auth"; "login"] p = true ->
        (exists stages,
           authRoutes POST (tail p) = Some stages
           /\ Server.installed (Server.app authRoutes userRoutes postRoutes) POST p
              = Server.global_middleware ++ stages)
        /\ Server.guarded
             (Server.installed (Server.app authRoutes userRoutes postRoutes) POST p)
           = false
        /\ (Server.VerifyToken
              ∉ Server.traverse passes (Server.app authRoutes userRoutes postRoutes) POST p))
  (* items and transactions *)
  /\ (forall m seg below,
        Server.same_segment "items" seg
        || Server.same_segment "transactions" seg
        || Server.same_segment "api" seg = true ->
        Server.installed (Server.app authRoutes userRoutes postRoutes) m (seg :: below)
        = Server.global_middleware).
Proof.
  destruct (registered_routes authRoutes userRoutes postRoutes passes)
    as (Hcreate & Hregister & Hstatic).
  repeat apply conj.
  - exact Hcreate.
  - intros m seg below Hseg.
    assert (Hinst : exists later,
      Server.installed (Server.app authRoutes userRoutes postRoutes) m (seg :: below)
      = Server.global_middleware ++ later
      /\ (later = [] \/ exists rest, later = Server.VerifyToken :: rest)).
    { rewrite installed_app_cons. first_segment Hseg.
      rewrite !andb_false_r. cbn [app].
      destruct (bool_decide (m = POST) && true && Server.route_matches [] below).
      - eexists. split; [reflexivity|]. right. by eexists.
      - destruct (postRoutes m below) as [stages|] eqn:Hr.
        + destruct (Hposts _ _ _ Hr) as [rest ->].
          eexists. split; [reflexivity|]. right. by eexists.
        + eexists. split; [reflexivity|]. by left. }
    destruct Hinst as (later & Hinst & Hlater). split.
    + intros Hserved. destruct Hlater as [->|[rest ->]].
      * rewrite app_nil_r in Hinst. done.
      * by eexists.
    + intros Hguard stage. unfold Server.traverse. rewrite Hinst.
      destruct Hlater as [->|[rest ->]].
      * rewrite app_nil_r. intros Hin%elem_of_met. by left.
      * apply met_stops, Hguard.
  - exact Hregister.
  - intros m seg below Hseg. destruct (Hstatic m seg below Hseg) as [Hinst _].
    split; [done|]. rewrite Hinst. apply bool_decide_eq_false_2.
    intros Hin. not_in_list Hin.
  - intros p Hp. rewrite route_matches_cons in Hp.
    destruct p as [|seg below]; [done|]. apply andb_true_iff in Hp as [Hseg Hbelow].
    destruct (Hlogin below Hbelow) as (stages & Hr & Hfree).
    assert (Hinst :
      Server.installed (Server.app authRoutes userRoutes postRoutes) POST (seg :: below)
      = Server.global_middleware ++ stages).
    { rewrite installed_app_cons. first_segment Hseg. rewrite Hr.
      rewrite route_matches_cons in Hbelow. rewrite route_matches_cons.
      destruct below as [|name rest]; [done|].
      apply andb_true_iff in Hbelow as [Hname _]. first_segment Hname.
      rewrite !andb_false_r. simpl. by rewrite ?app_nil_r. }
    assert (Hno : Server.VerifyToken ∉ Server.global_middleware ++ stages).
    { intros [Hin|Hin]%elem_of_app; [by apply guard_not_global|done]. }
    repeat apply conj.
    + by exists stages.
    + rewrite Hinst. by apply bool_decide_eq_false_2.
    + unfold Server.traverse. rewrite Hinst. by intros Hin%elem_of_met.
  - intros m seg below Hseg.
    rewrite installed_app_cons.
    assert (Hnone : Server.same_segment "assets" seg = false
                    /\ Server.same_segment "auth" seg = false
                    /\ Server.same_segment "users" seg = false
                    /\ Server.same_segment "posts" seg = false).
    { apply orb_true_iff in Hseg as [Hseg|Hseg];
        [apply orb_true_iff in Hseg as [Hseg|Hseg]|];
        first_segment Hseg; done. }
    destruct Hnone as (-> & -> & -> & ->).
    by rewrite !andb_false_r.
Qed.

Lemma C7_guard_witness :
  Server.login_is_public Server.login_only
  /\ Server.every_route_guarded Server.all_guarded
  /\ (Server.CreatePost
        ∉ Server.traverse Server.guard_rejects
            (Server.app Server.login_only Server.no_routes Server.all_guarded)
            POST ["Posts"; ""])
  /\ (forall stage,
        stage ∈ Server.traverse Server.guard_rejects
                  (Server.app Server.login_only Server.no_routes Server.all_guarded)
                  GET ["posts"; "42"] ->
        stage ∈ Server.global_middleware \/ stage = Server.VerifyToken)
  /\ Server.guarded
       (Server.installed
          (Server.app Server.login_only Server.no_routes Server.all_guarded)
          POST ["auth"; "login"])
     = false.
Proof.
  assert (Hlogin : Server.login_is_public Server.login_only).
  { intros below Hbelow. exists [Server.Handler "login"].
    unfold Server.login_only. rewrite Hbelow. split; [reflexivity|].
    intros Hin. not_in_list Hin. }
  assert (Hposts : Server.every_route_guarded Server.all_guarded).
  { intros m below stages [= <-]. by eexists. }
  destruct (C7_guard_on_protected_routes_only
              Server.login_only Server.no_routes Server.all_guarded
              Server.guard_rejects Hlogin Hposts)
    as (Hcreate & Hbelow & _ & _ & Hpublic & _).
  repeat apply conj.
  - exact Hlogin.
  - exact Hposts.
  - apply (Hcreate ["Posts"; ""]); reflexivity.
  - apply (Hbelow GET "posts" ["42"]); reflexivity.
  - apply (Hpublic ["auth"; "login"]). reflexivity.
Defined.

(** ** Token expiry (C3) *)

Lemma substring_all (s : string) : String.substring 0 (String.length s) s = s.
Proof. induction s as [|c s IH]; simpl; [done|by rewrite IH]. Qed.

Lemma append_cons (c : ascii) (s t : string) :
  String c s +:+ t = String c (s +:+ t).
Proof. reflexivity. Qed.

Lemma append_nil (t : string) : "" +:+ t = t.
Proof. reflexivity. Qed.

Lemma prefix_nil (s : string) : String.prefix "" s = true.
Proof. by destruct s. Qed.

Lemma bearer_token_of (tok : string) :
  AuthCore.bearer_token ("Bearer " +:+ tok) = Some tok.
Proof.
  unfold AuthCore.bearer_token.
  rewrite !append_cons, append_nil. simpl.
  by rewrite prefix_nil, Nat.sub_0_r, substring_all.
Qed.

Lemma cut_digits (d : Decimal.uint) (rest : string) :
  AuthCore.cut (NilEmpty.string_of_uint d +:+ String "." rest)
  = Some (NilEmpty.string_of_uint d, rest).
Proof.
  induction d; simpl; rewrite ?append_cons, ?append_nil; simpl;
    [reflexivity|..]; by rewrite IHd.
Qed.

Lemma cut_dec (n : N) (rest : string) :
  AuthCore.cut (AuthCore.dec n +:+ "." +:+ rest) = Some (AuthCore.dec n, rest).
Proof. change ("." +:+ rest) with (String "." rest). apply cut_digits. Qed.

Lemma undec_dec (n : N) : AuthCore.undec (AuthCore.dec n) = Some n.
Proof.
  unfold AuthCore.undec, AuthCore.dec.
  rewrite NilEmpty.usu. simpl. by rewrite DecimalN.Unsigned.of_to.
Qed.

Lemma decode_payload (c : AuthCore.Claims) :
  AuthCore.decode (AuthCore.payload c) = Some c.
Proof.
  unfold AuthCore.decode, AuthCore.payload.
  rewrite cut_dec. simpl. rewrite cut_dec. simpl.
  rewrite !undec_dec. simpl. by destruct c.
Qed.

(** What [authorize] answers for a token signed under the guard's policy. *)
Lemma authorize_signed (P : AuthCore.Policy) (c : AuthCore.Claims) (now : N) :
  AuthCore.authorize P now (Some ("Bearer " +:+ AuthCore.sign P c))
  = if (now <? AuthCore.expiry c)%N then inl (AuthCore.subject c)
    else inr AuthCore.Unauthenticated.
Proof.
  unfold AuthCore.authorize, AuthCore.sign.
  rewrite bearer_token_of, cut_dec, undec_dec.
  rewrite bool_decide_eq_true_2 by done.
  by rewrite decode_payload.
Qed.

(** C3: for every token the credential issuer issues, [authorize] under the
    same policy succeeds with the token's subject at every time strictly
    before the expiry, and fails with [Unauthenticated] at every time at or
    after it, the expiry instant included. *)
Theorem C3_authorize_until_expiry :
  forall (P : AuthCore.Policy) (subject : string) (issued now : N),
    let token := AuthCore.issueToken P subject issued in
    let expiry := (issued + AuthCore.lifetime P)%N in
    ((now < expiry)%N ->
       AuthCore.authorize P now (Some ("Bearer " +:+ token)) = inl subject)
    /\ ((expiry <= now)%N ->
          AuthCore.authorize P now (Some ("Bearer " +:+ token))
          = inr AuthCore.Unauthenticated)
    /\ AuthCore.authorize P expiry (Some ("Bearer " +:+ token))
       = inr AuthCore.Unauthenticated.
Proof.
  intros P subject issued now token expiry. subst token expiry.
  unfold AuthCore.issueToken. rewrite !authorize_signed. simpl.
  repeat split.
  - intros H. apply N.ltb_lt in H. by rewrite H.
  - intros H. apply N.ltb_ge in H. by rewrite H.
  - by rewrite N.ltb_irrefl.
Qed.

(** C3 on a token issued at time 1000 under the sample policy: accepted at
    4599, refused at 4600, the expiry instant. *)
Lemma C3_authorize_witness :
  AuthCore.authorize sample_policy 4599
    (Some ("Bearer " +:+ AuthCore.issueToken sample_policy "u1" 1000)) = inl "u1"
  /\ AuthCore.authorize sample_policy 4600
       (Some ("Bearer " +:+ AuthCore.issueToken sample_policy "u1" 1000))
     = inr AuthCore.Unauthenticated.
Proof.
  destruct (C3_authorize_until_expiry sample_policy "u1" 1000 4599) as (Hbefore & _ & Hat).
  split; [apply Hbefore; reflexivity | exact Hat].
Defined.

(** The guard on the other inputs of the scenario of section 8: no header, a
    header that is not a bearer token, a token signed under another secret. *)
Example authorize_rejects_missing_and_foreign :
  AuthCore.authorize sample_policy 0 None = inr AuthCore.Unauthenticated
  /\ AuthCore.authorize sample_policy 0 (Some "Bearer garbage")
     = inr AuthCore.Unauthenticated
  /\ AuthCore.authorize sample_policy 0 (Some "Basic dXNlcjpwdw==")
     = inr AuthCore.Unauthenticated
  /\ AuthCore.authorize sample_policy 1001
       (Some ("Bearer " +:+
              AuthCore.issueToken
                (AuthCore.mkPolicy "another secret" (AuthCore.mac sample_policy)
                   (AuthCore.hash sample_policy) 3600 (AuthCore.describe sample_policy))
                "u1" 1000))
     = inr AuthCore.Unauthenticated.
Proof. repeat split; vm_compute; reflexivity. Qed.

(** ** Login failures (C6) *)

(** C6: a login that fails because the identifier matches no user record and
    a login that fails because the password is wrong receive the same reply,
    status 401 with the message of [InvalidCredential]. *)
Theorem C6_login_failures_are_identical :
  forall (P : AuthCore.Policy) (store : gmap string AuthCore.User) (now : N)
         (known unknown wrong any : string) (u : AuthCore.User),
    AuthCore.findByIdentifier known store = Some u ->
    AuthCore.hash P (AuthCore.salt u) wrong <> AuthCore.hashedPassword u ->
    AuthCore.findByIdentifier unknown store = None ->
    AuthCore.post_login P store now known wrong
    = AuthCore.post_login P store now unknown any
    /\ AuthCore.post_login P store now unknown any
       = AuthCore.ReplyMessage 401 (AuthCore.describe P AuthCore.InvalidCredential).
Proof.
  intros P store now known unknown wrong any u Hknown Hwrong Hunknown.
  unfold AuthCore.post_login, AuthCore.login.
  rewrite Hknown, Hunknown.
  destruct (String.eqb_spec (AuthCore.hash P (AuthCore.salt u) wrong)
                            (AuthCore.hashedPassword u)); [done|].
  by split.
Qed.

(** The scenario of C6: alice with the password "wrong" and nobody with any
    password get byte-identical replies; alice with her password gets a
    token. *)
Lemma C6_alice_and_nobody_witness :
  AuthCore.post_login sample_policy sample_users 1000 "alice@example.com" "wrong"
  = AuthCore.post_login sample_policy sample_users 1000 "nobody@example.com" "anything"
  /\ AuthCore.post_login sample_policy sample_users 1000 "nobody@example.com" "anything"
     = AuthCore.ReplyMessage 401 "Invalid credentials".
Proof.
  apply (C6_login_failures_are_identical sample_policy sample_users 1000
           "alice@example.com" "nobody@example.com" "wrong" "anything"
           (AuthCore.mkUser "u1" "pepper$correct-horse" "pepper")).
  - reflexivity.
  - vm_compute. discriminate.
  - reflexivity.
Defined.

Example login_with_the_right_password :
  AuthCore.post_login sample_policy sample_users 1000 "alice@example.com" "correct-horse"
  = AuthCore.ReplyToken 200 (AuthCore.issueToken sample_policy "u1" 1000)
  /\ AuthCore.authorize sample_policy 1001
       (Some ("Bearer " +:+ AuthCore.issueToken sample_policy "u1" 1000)) = inl "u1".
Proof. split; vm_compute; reflexivity. Qed.

(** ** The provider and the store stay in step *)

(** The agreement between provider state and storage that C2 assumes holds
    when the client starts and is kept by every handler of the bundle. *)
Lemma TokenApp_in_sync_start st path : TokenApp_in_sync (TokenApp.AuthProvider st path).
Proof. by intros _. Qed.

Lemma TokenApp_in_sync_login v net w :
  TokenApp_in_sync (run (TokenApp.login v) net w).
Proof.
  unfold TokenApp_in_sync, TokenApp.login. eff. intros Ht.
  apply truthy_is_nonempty in Ht as (s & -> & _). apply getItem_setItem.
Qed.

Lemma TokenApp_in_sync_logout net w :
  TokenApp_in_sync (run TokenApp.logout net w).
Proof. unfold TokenApp_in_sync, TokenApp.logout. eff. discriminate. Qed.

Lemma TokenApp_in_sync_handleSubmit email password net w :
  TokenApp_in_sync w ->
  TokenApp_in_sync (run (TokenApp.Login_handleSubmit email password) net w).
Proof.
  unfold TokenApp_in_sync, TokenApp.Login_handleSubmit, TokenApp.login. eff.
  intros Hw. answers net; try exact Hw.
  intros Ht. apply truthy_is_nonempty in Ht as (s & -> & _). apply getItem_setItem.
Qed.

Lemma PersistApp_in_sync_start st : PersistApp_in_sync (PersistApp.AuthProvider st).
Proof. by intros _. Qed.

Lemma PersistApp_in_sync_set v net w :
  PersistApp_in_sync (run (PersistApp.setAndPersistToken v) net w).
Proof.
  unfold PersistApp_in_sync, PersistApp.setAndPersistToken. eff.
  destruct (truthy v) eqn:Hv; simpl; [|congruence].
  intros _. apply truthy_is_nonempty in Hv as (s & -> & _). apply getItem_setItem.
Qed.

(** How [Login.handleSubmit] of the second bundle ends: with an error
    message and nothing else changed, or as [setAndPersistToken] does. *)
Lemma PersistApp_login_cases email password net w :
  (exists msg,
     run (PersistApp.Login_handleSubmit email password) net w
     = mkWorld (storage w) (sent w ++ [PersistApp.login_request email password])
               (PersistApp.setLoginError msg (ui w)))
  \/ (exists v,
        run (PersistApp.Login_handleSubmit email password) net w
        = run (PersistApp.setAndPersistToken v) net
              (mkWorld (storage w) (sent w ++ [PersistApp.login_request email password])
                       (ui w))).
Proof.
  unfold PersistApp.Login_handleSubmit, PersistApp.setAndPersistToken. eff.
  destruct (net _ _) as [|r]; simpl; [left; by eexists|].
  destruct (json r) as [| |d]; simpl; [left; by eexists| |];
    destruct (ok r); simpl; try (left; by eexists).
  right. exists (token_field d). by destruct (truthy (token_field d)).
Qed.

Lemma PersistApp_in_sync_handleSubmit email password net w :
  PersistApp_in_sync w ->
  PersistApp_in_sync (run (PersistApp.Login_handleSubmit email password) net w).
Proof.
  intros Hw.
  destruct (PersistApp_login_cases email password net w) as [[msg ->] | [v ->]].
  - exact Hw.
  - apply PersistApp_in_sync_set.
Qed.

(** ** The handlers on concrete answers *)

Example TokenApp_login_then_list :
  let answer : Network :=
    fun _ req =>
      if String.eqb (url req) "http://localhost:5000/api/users/login"
      then Resolved (mkResponse 200 (JsonValue (mkJson (JStr "abc.def") JUndefined [])))
      else if bool_decide (authorization req = Some "Bearer abc.def")
           then Resolved (mkResponse 200 (JsonValue (mkJson JUndefined JUndefined ["i1"; "i2"])))
           else Resolved (mkResponse 401 (JsonValue (mkJson JUndefined (JStr "Unauthorized") []))) in
  let w := run (TokenApp.Login_handleSubmit "alice@example.com" "correct-horse";;
                TokenApp.fetchItems) answer (TokenApp.AuthProvider ∅ "/") in
  storage w !! "authToken" = Some "abc.def"
  /\ TokenApp.gate w = Authenticated
  /\ TokenApp.location (ui w) = "/dashboard"
  /\ TokenApp.items (ui w) = ["i1"; "i2"]
  /\ length (sent w) = 2.
Proof. vm_compute. repeat split. Qed.

Example PersistApp_delete_reads_the_store :
  new_requests (PersistApp.handleDelete "42") session_401
    (PersistApp.AuthProvider {["token" := "abc.def"]})
  = [mkRequest "http://localhost:5000/api/items/42" DELETE
       [("Authorization", "Bearer abc.def")] []]
  /\ PersistApp.alerts
       (ui (run (PersistApp.handleDelete "42") session_401
                (PersistApp.AuthProvider {["token" := "abc.def"]})))
     = ["Failed to delete item"].
Proof. vm_compute. repeat split. Qed.

Example AxiosApp_first_render_is_anonymous :
  AxiosApp.gate (AxiosApp.AuthProvider_render {["token" := "abc.def"]} "/dashboard")
  = Anonymous
  /\ AxiosApp.gate (AxiosApp.AuthProvider {["token" := "abc.def"]} "/dashboard")
     = Authenticated.
Proof. vm_compute. repeat split. Qed.

Example AxiosApp_failed_login :
  let w := run (AxiosApp.Login_handleSubmit "alice@example.com" "wrong") session_401
               (AxiosApp.AuthProvider ∅ "/") in
  storage w = ∅
  /\ AxiosApp.gate w = Anonymous
  /\ AxiosApp.login_error (ui w) = JStr "Invalid email or password".
Proof. vm_compute. repeat split. Qed.

(** ** What every world of a session satisfies *)

Lemma run_all_invariant {S} (I : World S -> Prop) (events : list (Eff S unit)) net :
  (forall e w, e ∈ events -> I w -> I (run e net w)) ->
  forall w, I w -> I (run_all events net w).
Proof.
  induction events as [|e rest IH]; intros Hstep w Hw; simpl; [done|].
  apply IH.
  - intros e' w' He'. apply Hstep. by right.
  - apply Hstep; [by left|done].
Qed.

Lemma token_agreement_kept e net w :
  token_agreement w -> token_agreement (run (token_handler e) net w).
Proof.
  unfold token_agreement. destruct e as [email password| |c]; simpl.
  - unfold TokenApp.Login_handleSubmit, TokenApp.login. eff. intros Hw.
    answers net; try exact Hw. right. apply getItem_setItem.
  - unfold TokenApp.logout. eff. intros _. left. apply getItem_removeItem.
  - destruct (TokenApp_call_frame c net w) as [-> ->]. done.
Qed.

Lemma token_session_agreement st path events net :
  token_agreement (token_session st path events net).
Proof.
  unfold token_session. apply run_all_invariant.
  - intros e w He. apply list_elem_of_fmap in He as (ev & -> & _).
    apply token_agreement_kept.
  - by left.
Qed.

Lemma token_agreement_string w :
  token_agreement w ->
  toString (TokenApp.token (ui w)) = toString (getItem "authToken" (storage w)).
Proof. by intros [-> | ->]. Qed.

Lemma token_agreement_in_sync w : token_agreement w -> TokenApp_in_sync w.
Proof.
  intros [H | H] Ht; [done|].
  apply truthy_is_nonempty in Ht as (s & Hs & _). by rewrite H, Hs.
Qed.

(** X1: in every world the first bundle reaches from a start, whatever the
    storage held, the events were and the server answered, the provider's
    token and the stored value agree as strings; so every request of a
    protected call carries [Bearer] followed by the stored value (by "null"
    when nothing is stored). *)
Theorem X1_token_session_requests_carry_the_stored_value :
  forall (st : Storage) (path : string) (events : list TokenEvent) (net : Network),
    TokenApp_in_sync (token_session st path events net)
    /\ toString (TokenApp.token (ui (token_session st path events net)))
       = toString (getItem "authToken" (storage (token_session st path events net)))
    /\ forall c net',
         Forall (fun r =>
                   authorization r
                   = Some ("Bearer " +:+
                           toString (getItem "authToken"
                                       (storage (token_session st path events net)))))
                (new_requests (TokenApp.perform c) net'
                              (token_session st path events net)).
Proof.
  intros st path events net.
  pose proof (token_session_agreement st path events net) as Hagree.
  split; [by apply token_agreement_in_sync|].
  split; [by apply token_agreement_string|].
  intros c net'. rewrite TokenApp_call_requests.
  rewrite <- (token_agreement_string _ Hagree).
  destruct c as [|n d [p|] i|]; [| case_bool_decide | |]; repeat constructor.
Qed.

Lemma persist_agreement_set v net w :
  persist_agreement (run (PersistApp.setAndPersistToken v) net w).
Proof.
  unfold persist_agreement, PersistApp.setAndPersistToken. eff.
  destruct (truthy v) eqn:Hv; simpl.
  - left. split; [done|].
    apply truthy_is_nonempty in Hv as (s & -> & _). apply getItem_setItem.
  - right. split; [done|]. by rewrite getItem_removeItem.
Qed.

Lemma persist_agreement_kept e net w :
  persist_agreement w -> persist_agreement (run (persist_handler e) net w).
Proof.
  destruct e as [email password| |c]; simpl; intros Hw.
  - destruct (PersistApp_login_cases email password net w) as [[msg ->] | [v ->]].
    + exact Hw.
    + apply persist_agreement_set.
  - apply persist_agreement_set.
  - unfold persist_agreement.
    destruct (PersistApp_call_frame c net w) as [-> ->]. done.
Qed.

Lemma persist_session_agreement st events net :
  persist_agreement (persist_session st events net).
Proof.
  unfold persist_session. apply run_all_invariant.
  - intros e w He. apply list_elem_of_fmap in He as (ev & -> & _).
    apply persist_agreement_kept.
  - unfold persist_agreement. simpl.
    destruct (truthy (getItem "token" st)) eqn:Ht; [by left|by right].
Qed.

(** X2: in every world the second bundle reaches from a start, the gate is
    [Authenticated] exactly when the storage holds a non-empty token, and in
    that case the provider's token is the stored one. *)
Theorem X2_persist_session_gate_follows_the_store :
  forall (st : Storage) (events : list PersistEvent) (net : Network),
    (PersistApp.gate (persist_session st events net) = Authenticated
     <-> exists t, storage (persist_session st events net) !! "token" = Some t /\ t <> "")
    /\ PersistApp_in_sync (persist_session st events net).
Proof.
  intros st events net.
  pose proof (persist_session_agreement st events net) as Hagree.
  rewrite PersistApp_gate_truthy, <- getItem_truthy.
  unfold PersistApp_in_sync.
  destruct Hagree as [[Ht Hget] | [Ht Hget]].
  - rewrite Hget. by rewrite Ht.
  - rewrite Ht, Hget. split; [done|discriminate].
Qed.

Lemma axios_agreement_start st path :
  axios_agreement (AxiosApp.AuthProvider st path).
Proof.
  unfold axios_agreement. simpl. split; [done|].
  intros Ht. apply getItem_truthy in Ht as (t & Ht & _). by eexists.
Qed.

Lemma axios_agreement_kept e net w :
  axios_agreement w -> axios_agreement (run (axios_handler e) net w).
Proof.
  unfold axios_agreement.
  destruct e as [email password|username email password| |c]; simpl; intros Hw.
  - unfold AxiosApp.Login_handleSubmit, AxiosApp.login, AxiosApp.api_login. eff.
    answers net; try exact Hw.
    all: split; [done|]; intros _; unfold setItem; rewrite lookup_insert_eq; by eexists.
  - unfold AxiosApp.Register_handleSubmit, AxiosApp.register, AxiosApp.api_register. eff.
    answers net; try exact Hw.
    all: split; [done|]; intros _; unfold setItem; rewrite lookup_insert_eq; by eexists.
  - unfold AxiosApp.logout, AxiosApp.api_logout. eff.
    rewrite getItem_removeItem. split; discriminate.
  - destruct c as [|n d p i|]; simpl;
      unfold AxiosApp.loadItems, AxiosApp.fetchItems, AxiosApp.AddItem_handleSubmit,
        AxiosApp.addItem, AxiosApp.reload, AxiosApp.loadTransactions,
        AxiosApp.fetchTransactions; eff;
      answers net; try exact Hw.
    all: apply (axios_agreement_start (storage w) (AxiosApp.location (ui w))).
Qed.

Lemma axios_session_agreement st path events net :
  axios_agreement (axios_session st path events net).
Proof.
  unfold axios_session. apply run_all_invariant.
  - intros e w He. apply list_elem_of_fmap in He as (ev & -> & _).
    apply axios_agreement_kept.
  - apply axios_agreement_start.
Qed.

(** X3: in every world the bundle of [unnamed/part_000] reaches from a
    mounted start, a non-empty stored token makes the gate [Authenticated],
    and the gate is [Authenticated] only while the storage holds an item
    under the token key. *)
Theorem X3_axios_session_gate_and_store :
  forall (st : Storage) (path : string) (events : list AxiosEvent) (net : Network),
    ((exists t, storage (axios_session st path events net) !! "token" = Some t /\ t <> "")
     -> AxiosApp.gate (axios_session st path events net) = Authenticated)
    /\ (AxiosApp.gate (axios_session st path events net) = Authenticated
        -> is_Some (storage (axios_session st path events net) !! "token")).
Proof.
  intros st path events net.
  destruct (axios_session_agreement st path events net) as [H1 H2].
  rewrite AxiosApp_gate_flag, <- getItem_truthy. by split.
Qed.

(** ** Logins answered 200 without a usable token *)

(** X4: in the first bundle, a login answered with an ok status whose token
    field is falsy still writes the storage: the key then holds the string
    form of the field ("undefined", "null" or the empty string); the gate is
    [Anonymous] and the dashboard the handler navigates to redirects to the
    login page; yet unless the field was the empty string, a client started
    afresh over that storage is [Authenticated]. *)
Theorem X4_token_login_without_token :
  forall (net : Network) (w : World TokenApp.Ui) (email password : string)
         (r : Response) (d : Json),
    net (sent w) (TokenApp.login_request email password) = Resolved r ->
    ok r = true -> json r = JsonValue d -> truthy (token_field d) = false ->
    let w' := run (TokenApp.Login_handleSubmit email password) net w in
    storage w' !! "authToken" = Some (toString (token_field d))
    /\ TokenApp.gate w' = Anonymous
    /\ TokenApp.location (ui w') = "/dashboard"
    /\ settle (TokenPages.App (ui w')) (TokenApp.location (ui w')) = LoginPage
    /\ (token_field d <> JStr "" ->
        forall path, TokenApp.gate (TokenApp.AuthProvider (storage w') path) = Authenticated).
Proof.
  intros net w email password r d Hnet Hok Hjson Hfalsy w'. subst w'.
  rewrite (TokenApp_login_success _ _ _ _ _ _ Hnet Hok Hjson). simpl.
  split; [unfold setItem; apply lookup_insert_eq|].
  split; [unfold TokenApp.gate, TokenApp.ProtectedRoute; simpl; by rewrite Hfalsy|].
  split; [done|].
  split; [unfold settle, TokenPages.App, TokenApp.ProtectedRoute; simpl; by rewrite Hfalsy|].
  intros Hne path. apply TokenApp_initial_gate.
  exists (toString (token_field d)). split; [unfold setItem; apply lookup_insert_eq|].
  destruct (token_field d) as [| |s]; [done|done|].
  simpl. intros Hs. apply Hne. by rewrite Hs.
Qed.

Lemma X4_token_login_without_token_witness :
  let w' := run (TokenApp.Login_handleSubmit "alice@example.com" "correct-horse")
                tokenless_200 (TokenApp.AuthProvider ∅ "/") in
  storage w' !! "authToken" = Some "undefined"
  /\ TokenApp.gate w' = Anonymous
  /\ TokenApp.location (ui w') = "/dashboard"
  /\ settle (TokenPages.App (ui w')) (TokenApp.location (ui w')) = LoginPage
  /\ (JUndefined <> JStr "" ->
      forall path, TokenApp.gate (TokenApp.AuthProvider (storage w') path) = Authenticated).
Proof.
  apply (X4_token_login_without_token tokenless_200 (TokenApp.AuthProvider ∅ "/")
           "alice@example.com" "correct-horse"
           (mkResponse 200 (JsonValue (mkJson JUndefined (JStr "welcome") [])))
           (mkJson JUndefined (JStr "welcome") []));
    reflexivity.
Defined.

(** X5: in the second bundle, a login answered with an ok status whose token
    field is falsy removes the stored token: the session that was open, if
    any, is closed, now and for a client started afresh. *)
Theorem X5_persist_login_without_token :
  forall (net : Network) (w : World PersistApp.Ui) (email password : string)
         (r : Response) (d : Json),
    net (sent w) (PersistApp.login_request email password) = Resolved r ->
    ok r = true -> json r = JsonValue d -> truthy (token_field d) = false ->
    let w' := run (PersistApp.Login_handleSubmit email password) net w in
    storage w' = removeItem "token" (storage w)
    /\ PersistApp.gate w' = Anonymous
    /\ PersistApp.gate (PersistApp.AuthProvider (storage w')) = Anonymous
    /\ PersistApp.login_error (ui w') = PersistApp.login_error (ui w).
Proof.
  intros net w email password r d Hnet Hok Hjson Hfalsy w'. subst w'.
  unfold PersistApp.Login_handleSubmit, PersistApp.setAndPersistToken. eff.
  rewrite Hnet. simpl. rewrite Hjson. simpl. rewrite Hok, Hfalsy. simpl.
  split; [done|].
  split; [unfold PersistApp.gate, PersistApp.ProtectedRoute; simpl; by rewrite Hfalsy|].
  split; [|done].
  unfold PersistApp.gate, PersistApp.ProtectedRoute. simpl.
  by rewrite getItem_removeItem.
Qed.

Lemma X5_persist_login_without_token_witness :
  let w := PersistApp.AuthProvider {["token" := "abc.def"]} in
  let w' := run (PersistApp.Login_handleSubmit "alice@example.com" "correct-horse")
                tokenless_200 w in
  storage w' = removeItem "token" (storage w)
  /\ PersistApp.gate w' = Anonymous
  /\ PersistApp.gate (PersistApp.AuthProvider (storage w')) = Anonymous
  /\ PersistApp.login_error (ui w') = PersistApp.login_error (ui w).
Proof.
  apply (X5_persist_login_without_token tokenless_200
           (PersistApp.AuthProvider {["token" := "abc.def"]})
           "alice@example.com" "correct-horse"
           (mkResponse 200 (JsonValue (mkJson JUndefined (JStr "welcome") [])))
           (mkJson JUndefined (JStr "welcome") []));
    reflexivity.
Defined.

(** X6: in the bundle of [unnamed/part_000], a login answered with an ok
    status opens the session unless the body is the JSON value [null]: the
    gate becomes [Authenticated], the client goes to the dashboard, and the
    storage receives the string form of the body's token field, "undefined"
    when the body has none or is not JSON.  On a [null] body reading the
    token throws before anything is stored: the storage and the flag stay as
    they were and the form shows "Invalid email or password". *)
Theorem X6_axios_login_trusts_the_status :
  forall (net : Network) (w : World AxiosApp.Ui) (email password : string) (r : Response),
    net (sent w) (AxiosApp.login_request email password) = Resolved r ->
    ok r = true ->
    let w' := run (AxiosApp.Login_handleSubmit email password) net w in
    match json r with
    | JsonNull =>
        w' = mkWorld (storage w) (sent w ++ [AxiosApp.login_request email password])
               (AxiosApp.setLoginError (JStr "Invalid email or password") (ui w))
    | JsonValue d =>
        AxiosApp.gate w' = Authenticated
        /\ AxiosApp.location (ui w') = "/dashboard"
        /\ storage w' !! "token" = Some (toString (token_field d))
    | NotJson =>
        AxiosApp.gate w' = Authenticated
        /\ AxiosApp.location (ui w') = "/dashboard"
        /\ storage w' !! "token" = Some "undefined"
    end.
Proof.
  intros net w email password r Hnet Hok w'. subst w'.
  unfold AxiosApp.Login_handleSubmit, AxiosApp.login, AxiosApp.api_login. eff.
  rewrite Hnet. simpl. rewrite Hok. simpl.
  destruct (json r) as [| |d]; simpl; [|done|];
    repeat split; unfold setItem; by rewrite lookup_insert_eq.
Qed.

Lemma X6_axios_login_witness :
  let w' := run (AxiosApp.Login_handleSubmit "alice@example.com" "correct-horse")
                tokenless_200 (AxiosApp.AuthProvider ∅ "/") in
  AxiosApp.gate w' = Authenticated
  /\ AxiosApp.location (ui w') = "/dashboard"
  /\ storage w' !! "token" = Some "undefined".
Proof.
  apply (X6_axios_login_trusts_the_status tokenless_200 (AxiosApp.AuthProvider ∅ "/")
           "alice@example.com" "correct-horse"
           (mkResponse 200 (JsonValue (mkJson JUndefined (JStr "welcome") []))));
    reflexivity.
Defined.

(** The same login answered 200 with the body [null]. *)
Example X6_axios_login_null_body :
  let net : Network := fun _ _ => Resolved (mkResponse 200 JsonNull) in
  let w' := run (AxiosApp.Login_handleSubmit "alice@example.com" "correct-horse")
                net (AxiosApp.AuthProvider ∅ "/") in
  storage w' = ∅
  /\ AxiosApp.gate w' = Anonymous
  /\ AxiosApp.login_error (ui w') = JStr "Invalid email or password".
Proof. vm_compute. repeat split. Qed.

(** ** Item forms, deletions and listings *)

(** X7: [AddItem.handleSubmit] of the first bundle sends nothing when the
    price is missing or zero: the world is left as it was but for the
    message "Price is required"; with any other price it sends exactly one
    POST that carries the four fields.  The second bundle has no such check:
    it sends the request with whatever the price field holds, the empty
    string included. *)
Theorem X7_add_item_requires_a_price :
  (forall name description image net w price,
     price = None \/ price = Some 0%Z ->
     run (TokenApp.AddItem_handleSubmit name description price image) net w
     = mkWorld (storage w) (sent w)
               (TokenApp.setAddItemError (JStr "Price is required") (ui w)))
  /\ (forall name description image net w p,
        p <> 0%Z ->
        sent (run (TokenApp.AddItem_handleSubmit name description (Some p) image) net w)
        = sent w ++ [TokenApp.add_item_request (TokenApp.token (ui w))
                       name description p image])
  /\ (forall name description price image net w,
        sent (run (PersistApp.AddItem_handleSubmit name description price image) net w)
        = sent w ++ [PersistApp.add_item_request (getItem "token" (storage w))
                       name description price image]).
Proof.
  repeat apply conj.
  - intros name description image net w price [-> | ->]; reflexivity.
  - intros name description image net w p Hp.
    unfold TokenApp.AddItem_handleSubmit. eff.
    destruct p as [|p|p]; [done| |]; answers net; reflexivity.
  - intros name description price image net w.
    unfold PersistApp.AddItem_handleSubmit. eff. answers net; reflexivity.
Qed.

Lemma X7_add_item_witness :
  run (TokenApp.AddItem_handleSubmit "lamp" "a lamp" (Some 0%Z) "lamp.png")
      session_401 TokenApp_open_session
  = mkWorld (storage TokenApp_open_session) (sent TokenApp_open_session)
            (TokenApp.setAddItemError (JStr "Price is required") (ui TokenApp_open_session)).
Proof.
  apply (proj1 X7_add_item_requires_a_price). by right.
Defined.

(** X8: [ItemList.handleDelete] sends one DELETE for the item, with the
    token read from the storage at that moment, and shows exactly one alert,
    chosen by the outcome; it changes nothing else: the storage, the
    provider's token and the items displayed stay as they were, also when
    the server reports the deletion done. *)
Theorem X8_delete_only_alerts :
  forall (id : string) (net : Network) (w : World PersistApp.Ui),
    let request := PersistApp.delete_request (getItem "token" (storage w)) id in
    let w' := run (PersistApp.handleDelete id) net w in
    sent w' = sent w ++ [request]
    /\ storage w' = storage w
    /\ PersistApp.token (ui w') = PersistApp.token (ui w)
    /\ PersistApp.items (ui w') = PersistApp.items (ui w)
    /\ PersistApp.alerts (ui w')
       = PersistApp.alerts (ui w)
         ++ [match net (sent w) request with
             | Rejected => "An error occurred. Please try again."
             | Resolved r =>
                 if ok r then "Item deleted successfully" else "Failed to delete item"
             end].
Proof.
  intros id net w request w'. subst request w'.
  unfold PersistApp.handleDelete. eff.
  destruct (net _ _) as [|r]; simpl; [done|].
  destruct (ok r); done.
Qed.

(** X9: a protected call of the axios service whose request is rejected or
    answered with a status outside 200-299 throws out of its handler, which
    has no [catch]: the storage and the whole component state are left as
    they were, no error message is recorded and the page is not reloaded. *)
Theorem X9_axios_failed_call_escapes :
  forall (c : AxiosApp.ProtectedCall) (net : Network) (w : World AxiosApp.Ui),
    axios_login_fails (net (sent w) (axios_call_request c)) ->
    (exists e, (AxiosApp.perform c net w).1 = Thrown e)
    /\ run (AxiosApp.perform c) net w
       = mkWorld (storage w) (sent w ++ [axios_call_request c]) (ui w).
Proof.
  intros c net w Hfail. unfold axios_login_fails in Hfail.
  destruct c as [|n d p i|]; simpl in *;
    unfold AxiosApp.loadItems, AxiosApp.fetchItems, AxiosApp.AddItem_handleSubmit,
      AxiosApp.addItem, AxiosApp.reload, AxiosApp.loadTransactions,
      AxiosApp.fetchTransactions; eff;
    (destruct (net _ _) as [|r]; simpl; [|rewrite Hfail; simpl]);
    (split; [by eexists | by destruct w]).
Qed.

Lemma X9_axios_failed_call_witness :
  (exists e, (AxiosApp.perform AxiosApp.CallLoadItems session_401
                (AxiosApp.AuthProvider {["token" := "abc.def"]} "/dashboard")).1 = Thrown e)
  /\ run (AxiosApp.perform AxiosApp.CallLoadItems) session_401
         (AxiosApp.AuthProvider {["token" := "abc.def"]} "/dashboard")
     = mkWorld (storage (AxiosApp.AuthProvider {["token" := "abc.def"]} "/dashboard"))
               (sent (AxiosApp.AuthProvider {["token" := "abc.def"]} "/dashboard")
                ++ [axios_call_request AxiosApp.CallLoadItems])
               (ui (AxiosApp.AuthProvider {["token" := "abc.def"]} "/dashboard")).
Proof.
  apply (X9_axios_failed_call_escapes AxiosApp.CallLoadItems session_401
           (AxiosApp.AuthProvider {["token" := "abc.def"]} "/dashboard")).
  reflexivity.
Defined.

(** X10: when the server accepts the new item, [AddItem.handleSubmit] of the
    axios bundle reloads the page: the component state is the one of a client
    started over the same storage at the same location, so the items and
    the messages shown are reset and the gate is recomputed from the
    storage alone. *)
Theorem X10_axios_add_item_restarts :
  forall name description price image (net : Network) (w : World AxiosApp.Ui) (r : Response),
    net (sent w) (AxiosApp.add_item_request name description price image) = Resolved r ->
    ok r = true ->
    let w' := run (AxiosApp.AddItem_handleSubmit name description price image) net w in
    w' = mkWorld (storage w)
           (sent w ++ [AxiosApp.add_item_request name description price image])
           (ui (AxiosApp.AuthProvider (storage w) (AxiosApp.location (ui w))))
    /\ AxiosApp.items (ui w') = []
    /\ (AxiosApp.gate w' = Authenticated
        <-> exists t, storage w !! "token" = Some t /\ t <> "").
Proof.
  intros name description price image net w r Hnet Hok w'. subst w'.
  unfold AxiosApp.AddItem_handleSubmit, AxiosApp.addItem, AxiosApp.reload. eff.
  rewrite Hnet. simpl. rewrite Hok. simpl.
  split; [done|]. split; [done|].
  rewrite <- getItem_truthy, AxiosApp_gate_flag. done.
Qed.

Lemma X10_axios_add_item_witness :
  let net : Network := fun _ _ => Resolved (mkResponse 201 NotJson) in
  let w :=
    mkWorld ({["token" := "abc.def"]} : Storage) []
      (AxiosApp.setItems ["i1"]
         (ui (AxiosApp.AuthProvider {["token" := "abc.def"]} "/dashboard"))) in
  let w' := run (AxiosApp.AddItem_handleSubmit "lamp" "a lamp" (FNum 3) "lamp.png") net w in
  w' = mkWorld (storage w)
         (sent w ++ [AxiosApp.add_item_request "lamp" "a lamp" (FNum 3) "lamp.png"])
         (ui (AxiosApp.AuthProvider (storage w) (AxiosApp.location (ui w))))
  /\ AxiosApp.items (ui w') = []
  /\ (AxiosApp.gate w' = Authenticated
      <-> exists t, storage w !! "token" = Some t /\ t <> "").
Proof.
  intros net w.
  apply (X10_axios_add_item_restarts "lamp" "a lamp" (FNum 3) "lamp.png" net w
           (mkResponse 201 NotJson)); reflexivity.
Defined.

(** ** Registration *)

(** X11: [Register.handleSubmit] of the axios bundle logs the new user in
    when the answer has an ok status and a body other than the JSON value
    [null]: it stores the body's token field under the token key ("undefined"
    when the body is not JSON), sets the flag and goes to the dashboard.  On
    a [null] body reading the token throws, and on a rejected request or
    another status axios throws: the storage and the flag stay as they were
    and the form only records "Registration failed". *)
Theorem X11_axios_register_opens_the_session :
  (forall net w username email password r,
     net (sent w) (AxiosApp.register_request username email password) = Resolved r ->
     ok r = true ->
     run (AxiosApp.Register_handleSubmit username email password) net w
     = match json r with
       | JsonNull =>
           mkWorld (storage w)
             (sent w ++ [AxiosApp.register_request username email password])
             (AxiosApp.setRegisterError (JStr "Registration failed") (ui w))
       | JsonValue d =>
           mkWorld (setItem "token" (token_field d) (storage w))
             (sent w ++ [AxiosApp.register_request username email password])
             (AxiosApp.navigate "/dashboard" (AxiosApp.setIsAuthenticated true (ui w)))
       | NotJson =>
           mkWorld (setItem "token" JUndefined (storage w))
             (sent w ++ [AxiosApp.register_request username email password])
             (AxiosApp.navigate "/dashboard" (AxiosApp.setIsAuthenticated true (ui w)))
       end)
  /\ (forall net w username email password,
        axios_login_fails (net (sent w) (AxiosApp.register_request username email password)) ->
        run (AxiosApp.Register_handleSubmit username email password) net w
        = mkWorld (storage w)
            (sent w ++ [AxiosApp.register_request username email password])
            (AxiosApp.setRegisterError (JStr "Registration failed") (ui w))).
Proof.
  split.
  - intros net w username email password r Hnet Hok.
    unfold AxiosApp.Register_handleSubmit, AxiosApp.register, AxiosApp.api_register. eff.
    rewrite Hnet. simpl. rewrite Hok. simpl. by destruct (json r).
  - intros net w username email password Hfail. unfold axios_login_fails in Hfail.
    unfold AxiosApp.Register_handleSubmit, AxiosApp.register, AxiosApp.api_register. eff.
    destruct (net _ _) as [|r]; simpl; [done|]. by rewrite Hfail.
Qed.

(** A registration accepted with a token, and one refused with a 401. *)
Lemma X11_axios_register_witness :
  let accepted : Network :=
    fun _ _ => Resolved (mkResponse 201 (JsonValue (mkJson (JStr "abc.def") JUndefined []))) in
  let w := AxiosApp.AuthProvider ∅ "/register" in
  let request := AxiosApp.register_request "alice" "alice@example.com" "correct-horse" in
  run (AxiosApp.Register_handleSubmit "alice" "alice@example.com" "correct-horse") accepted w
  = mkWorld (setItem "token" (JStr "abc.def") (storage w)) (sent w ++ [request])
      (AxiosApp.navigate "/dashboard" (AxiosApp.setIsAuthenticated true (ui w)))
  /\ run (AxiosApp.Register_handleSubmit "alice" "alice@example.com" "correct-horse")
         session_401 w
     = mkWorld (storage w) (sent w ++ [request])
         (AxiosApp.setRegisterError (JStr "Registration failed") (ui w)).
Proof.
  intros accepted w request. split.
  - apply (proj1 X11_axios_register_opens_the_session accepted w
             "alice" "alice@example.com" "correct-horse"
             (mkResponse 201 (JsonValue (mkJson (JStr "abc.def") JUndefined []))));
      reflexivity.
  - apply (proj2 X11_axios_register_opens_the_session). reflexivity.
Defined.

(** X12: [Register.handleSubmit] of the first bundle never logs in: whatever
    the server answers, a token in the body included, the storage is left
    as it was and the one request sent carries no [Authorization] header;
    the form goes to the login page at "/" exactly when the status is ok and
    the body is JSON ([null] included), and otherwise only the error message
    changes. *)
Theorem X12_token_register_does_not_log_in :
  forall (name email password : string) (net : Network) (w : World TokenPages.RegisterUi),
    let request := TokenPages.register_request name email password in
    let w' := run (TokenPages.Register_handleSubmit name email password) net w in
    storage w' = storage w
    /\ sent w' = sent w ++ [request]
    /\ authorization request = None
    /\ match net (sent w) request with
       | Resolved r =>
           match json r with
           | JsonValue d =>
               if ok r
               then ui w' = TokenPages.mkRegisterUi (TokenPages.error (ui w)) "/"
               else ui w' = TokenPages.mkRegisterUi (message_field d)
                              (TokenPages.location (ui w))
           | JsonNull =>
               if ok r
               then ui w' = TokenPages.mkRegisterUi (TokenPages.error (ui w)) "/"
               else ui w' = TokenPages.mkRegisterUi
                              (JStr "An error occurred. Please try again.")
                              (TokenPages.location (ui w))
           | NotJson =>
               ui w' = TokenPages.mkRegisterUi
                         (JStr "An error occurred. Please try again.")
                         (TokenPages.location (ui w))
           end
       | Rejected =>
           ui w' = TokenPages.mkRegisterUi
                     (JStr "An error occurred. Please try again.")
                     (TokenPages.location (ui w))
       end.
Proof.
  intros name email password net w request w'. subst request w'.
  unfold TokenPages.Register_handleSubmit. eff.
  destruct (net _ _) as [|r]; simpl; [done|].
  destruct (json r) as [| |d]; simpl; [done| |]; destruct (ok r); done.
Qed.

(** X13: [Register.handleSubmit] of the second bundle never touches the
    storage; on an ok answer with a JSON body ([null] included) it empties
    the three fields and the error and shows the success message; on any
    other outcome it keeps the three fields for another try, shows a
    non-empty error, and leaves the success message as it was, so that a
    success message from an earlier submission stays on screen beside the
    error. *)
Theorem X13_persist_register_messages :
  forall (net : Network) (w : World PersistPages.RegisterUi),
    let request :=
      PersistPages.register_request (PersistPages.username (ui w))
        (PersistPages.email (ui w)) (PersistPages.password (ui w)) in
    let w' := run PersistPages.Register_handleSubmit net w in
    storage w' = storage w
    /\ sent w' = sent w ++ [request]
    /\ match net (sent w) request with
       | Resolved r =>
           if ok r && bool_decide (json r <> NotJson)
           then ui w' = PersistPages.mkRegisterUi "" "" "" (JStr "")
                          (JStr "Registration successful. You can now log in.")
           else PersistPages.username (ui w') = PersistPages.username (ui w)
                /\ PersistPages.email (ui w') = PersistPages.email (ui w)
                /\ PersistPages.password (ui w') = PersistPages.password (ui w)
                /\ PersistPages.success (ui w') = PersistPages.success (ui w)
                /\ truthy (PersistPages.error (ui w')) = true
       | Rejected =>
           PersistPages.username (ui w') = PersistPages.username (ui w)
           /\ PersistPages.email (ui w') = PersistPages.email (ui w)
           /\ PersistPages.password (ui w') = PersistPages.password (ui w)
           /\ PersistPages.success (ui w') = PersistPages.success (ui w)
           /\ truthy (PersistPages.error (ui w')) = true
       end.
Proof.
  intros net w request w'. subst request w'.
  unfold PersistPages.Register_handleSubmit. eff.
  destruct (net _ _) as [|r]; simpl; [done|].
  destruct (json r) as [| |d]; simpl.
  - rewrite andb_false_r. done.
  - destruct (ok r); done.
  - destruct (ok r); simpl; [done|].
    repeat split. unfold js_or.
    destruct (truthy (message_field d)) eqn:Hm; done.
Qed.

(** ** Dispatch in the Express application *)

(** X14: the guard [server/index.js] installs protects post creation and
    nothing else.  The access guard is on the way of a request, and so can
    be met by it, only if the request is a [POST] to [/posts] (in any case
    of letters, with or without a closing slash), or if its first segment
    is the mount path of one of the three routers and that router's own
    stages for the rest of the path hold the guard. *)
Theorem X14_only_post_creation_is_guarded_by_the_app :
  forall (authRoutes userRoutes postRoutes : Server.Router) (m : Method) (p : Server.Path),
    Server.guarded
      (Server.installed (Server.app authRoutes userRoutes postRoutes) m p) = true ->
    (m = POST /\ Server.route_matches ["posts"] p = true)
    \/ exists name router seg below stages,
         (name, router) ∈ [("auth", authRoutes); ("users", userRoutes); ("posts", postRoutes)]
         /\ p = seg :: below
         /\ Server.same_segment name seg = true
         /\ router m below = Some stages
         /\ Server.guarded stages = true.
Proof.
  intros authRoutes userRoutes postRoutes m p Hg.
  apply bool_decide_eq_true in Hg.
  destruct p as [|seg below].
  { rewrite installed_app in Hg. cbn [Server.strip] in Hg.
    rewrite !route_matches_cons, !andb_false_r in Hg. not_in_list Hg. }
  rewrite installed_app_cons in Hg.
  assert (Hrouter : forall (r : Server.Router) (name : string),
             (name, r) ∈ [("auth", authRoutes); ("users", userRoutes); ("posts", postRoutes)] ->
             Server.VerifyToken
               ∈ (if Server.same_segment name seg then default [] (r m below) else []) ->
             exists name' router seg' below' stages,
               (name', router) ∈ [("auth", authRoutes); ("users", userRoutes);
                                  ("posts", postRoutes)]
               /\ seg :: below = seg' :: below'
               /\ Server.same_segment name' seg' = true
               /\ router m below' = Some stages
               /\ Server.guarded stages = true).
  { intros r name Hin Hmem.
    destruct (Server.same_segment name seg) eqn:Hseg; [|by apply elem_of_nil in Hmem].
    destruct (r m below) as [stages|] eqn:Hr; [|by apply elem_of_nil in Hmem].
    exists name, r, seg, below, stages. repeat split; try done.
    by apply bool_decide_eq_true. }
  repeat (apply elem_of_app in Hg as [Hg|Hg]).
  - by apply guard_not_global in Hg.
  - destruct (Server.same_segment "assets" seg); not_in_list Hg.
  - destruct (bool_decide (m = POST) && Server.same_segment "auth" seg
              && Server.route_matches ["register"] below); not_in_list Hg.
  - destruct (bool_decide (m = POST) && Server.same_segment "posts" seg
              && Server.route_matches [] below) eqn:Hroute;
      [|by apply elem_of_nil in Hg].
    left. apply andb_true_iff in Hroute as [Hroute Hrest].
    apply andb_true_iff in Hroute as [Hm Hseg]. apply bool_decide_eq_true in Hm.
    split; [done|]. rewrite route_matches_cons, Hseg. done.
  - right. apply (Hrouter authRoutes "auth"); [in_list|done].
  - right. apply (Hrouter userRoutes "users"); [in_list|done].
  - right. apply (Hrouter postRoutes "posts"); [in_list|done].
Qed.

Lemma X14_only_post_creation_witness :
  Server.guarded
    (Server.installed
       (Server.app Server.no_routes Server.no_routes Server.no_routes) POST ["POSTS"; ""])
  = true
  /\ ((POST = POST /\ Server.route_matches ["posts"] ["POSTS"; ""] = true)
      \/ exists name router seg below stages,
           (name, router) ∈ [("auth", Server.no_routes); ("users", Server.no_routes);
                             ("posts", Server.no_routes)]
           /\ ["POSTS"; ""] = seg :: below
           /\ Server.same_segment name seg = true
           /\ router POST below = Some stages
           /\ Server.guarded stages = true).
Proof.
  split; [reflexivity|].
  apply (X14_only_post_creation_is_guarded_by_the_app
           Server.no_routes Server.no_routes Server.no_routes POST ["POSTS"; ""]).
  reflexivity.
Defined.

(** X15: the seven global middleware stages are the first on the way of
    every request, in their order of registration, and a request meets them
    in that order up to the first that ends it: all seven when each passes
    it on, [express.json] alone when that stage fails on the body.  A
    request whose path is the root, or starts with a segment that is none of
    [assets], [auth], [users] and [posts] in any case of letters, such as the
    [/api/...] paths the client bundles call, has nothing else on its way: no
    route or router of the application serves it, whatever the method and
    the routers. *)
Theorem X15_unserved_paths :
  forall (authRoutes userRoutes postRoutes : Server.Router) (m : Method),
    (forall p, exists rest,
        Server.installed (Server.app authRoutes userRoutes postRoutes) m p
        = Server.global_middleware ++ rest)
    /\ (forall passes p,
          (forall s, s ∈ Server.global_middleware -> passes s = true) ->
          exists rest,
            Server.installed (Server.app authRoutes userRoutes postRoutes) m p
            = Server.global_middleware ++ rest
            /\ Server.traverse passes (Server.app authRoutes userRoutes postRoutes) m p
               = Server.global_middleware ++ Server.met passes rest)
    /\ (forall passes p,
          passes Server.ExpressJson = false ->
          Server.traverse passes (Server.app authRoutes userRoutes postRoutes) m p
          = [Server.ExpressJson])
    /\ Server.installed (Server.app authRoutes userRoutes postRoutes) m []
       = Server.global_middleware
    /\ Server.installed (Server.app authRoutes userRoutes postRoutes) m [""]
       = Server.global_middleware
    /\ (forall seg below,
          Server.same_segment "assets" seg = false ->
          Server.same_segment "auth" seg = false ->
          Server.same_segment "users" seg = false ->
          Server.same_segment "posts" seg = false ->
          Server.installed (Server.app authRoutes userRoutes postRoutes) m (seg :: below)
          = Server.global_middleware).
Proof.
  intros authRoutes userRoutes postRoutes m. repeat apply conj.
  - intros p. rewrite installed_app. by eexists.
  - intros passes p Hpass. rewrite installed_app. eexists. split; [reflexivity|].
    unfold Server.traverse. rewrite installed_app.
    unfold Server.global_middleware in *. cbn [app Server.met].
    rewrite !Hpass by in_list. reflexivity.
  - intros passes p Hjson. unfold Server.traverse. rewrite installed_app.
    unfold Server.global_middleware. cbn [app Server.met]. by rewrite Hjson.
  - rewrite installed_app. cbn [Server.strip].
    by rewrite !route_matches_cons, !andb_false_r.
  - rewrite installed_app_cons.
    replace (Server.same_segment "assets" "") with false by reflexivity.
    replace (Server.same_segment "auth" "") with false by reflexivity.
    replace (Server.same_segment "users" "") with false by reflexivity.
    replace (Server.same_segment "posts" "") with false by reflexivity.
    by rewrite !andb_false_r.
  - intros seg below H1 H2 H3 H4. rewrite installed_app_cons, H1, H2, H3, H4.
    by rewrite !andb_false_r.
Qed.

Lemma X15_api_paths_witness :
  Server.installed (Server.app Server.no_routes Server.no_routes Server.no_routes)
    GET ["api"; "items"]
  = Server.global_middleware.
Proof.
  apply (proj2 (proj2 (proj2 (proj2 (proj2
           (X15_unserved_paths Server.no_routes Server.no_routes Server.no_routes GET)))))
         "api" ["items"]); reflexivity.
Defined.

(** ** Pages and navigation *)

Lemma TokenPages_App_cases u path :
  TokenPages.App u path
  = if bool_decide (path = "/") then LoginPage
    else if bool_decide (path = "/register") then RegisterPage
    else if bool_decide (path = "/dashboard") then
      if truthy (TokenApp.token u) then DashboardPage else Redirect "/"
    else NoMatch.
Proof.
  unfold TokenPages.App, TokenApp.ProtectedRoute.
  repeat (case_bool_decide as H;
          [apply String.eqb_eq in H; rewrite H; clear H
          |apply String.eqb_neq in H; rewrite H; clear H]); try done.
  by destruct (truthy _).
Qed.

Lemma PersistPages_App_cases u path :
  PersistPages.App u path
  = if bool_decide (path = "/login") then LoginPage
    else if bool_decide (path = "/register") then RegisterPage
    else if bool_decide (path = "/dashboard") then
      if truthy (PersistApp.token u) then DashboardPage else Redirect "/login"
    else if bool_decide (path = "/transactions") then
      if truthy (PersistApp.token u) then TransactionsPage else Redirect "/login"
    else Redirect "/login".
Proof.
  unfold PersistPages.App, PersistApp.ProtectedRoute.
  repeat (case_bool_decide as H;
          [apply String.eqb_eq in H; rewrite H; clear H
          |apply String.eqb_neq in H; rewrite H; clear H]); try done.
  all: by destruct (truthy _).
Qed.

Lemma AxiosPages_App_cases u path :
  AxiosPages.App u path
  = if bool_decide (path = "/") then LoginPage
    else if bool_decide (path = "/register") then RegisterPage
    else if bool_decide (path = "/dashboard") then
      if AxiosApp.isAuthenticated u then DashboardPage else LoginPage
    else NoMatch.
Proof.
  unfold AxiosPages.App, AxiosApp.ProtectedRoute.
  repeat (case_bool_decide as H;
          [apply String.eqb_eq in H; rewrite H; clear H
          |apply String.eqb_neq in H; rewrite H; clear H]); try done.
  by destruct (AxiosApp.isAuthenticated _).
Qed.

(** X16: where the dashboard is behind [ProtectedRoute], it is shown only
    while the gate is [Authenticated], and so is the transaction list of the
    second bundle, the only one with a route for it.  In the first two
    bundles every redirect leads to the login page, so following a redirect
    once always ends on a page, and the second bundle leaves no location
    unmatched; the later [App] of [unnamed/part_000] never redirects.  In the
    earlier [App] of [unnamed/part_000] the dashboard is shown at "/" and
    "/dashboard" whatever the gate. *)
Theorem X16_protected_pages_need_a_session :
  (forall (w : World TokenApp.Ui) path,
     (TokenPages.App (ui w) path = DashboardPage -> TokenApp.gate w = Authenticated)
     /\ TokenPages.App (ui w) path <> TransactionsPage
     /\ (forall to, TokenPages.App (ui w) path = Redirect to ->
                    TokenPages.App (ui w) to = LoginPage)
     /\ (forall to, settle (TokenPages.App (ui w)) path <> Redirect to))
  /\ (forall (w : World PersistApp.Ui) path,
        (PersistPages.App (ui w) path = DashboardPage
         \/ PersistPages.App (ui w) path = TransactionsPage ->
         PersistApp.gate w = Authenticated)
        /\ PersistPages.App (ui w) path <> NoMatch
        /\ (forall to, PersistPages.App (ui w) path = Redirect to ->
                       PersistPages.App (ui w) to = LoginPage)
        /\ (forall to, settle (PersistPages.App (ui w)) path <> Redirect to))
  /\ (forall (w : World AxiosApp.Ui) path,
        (AxiosPages.App (ui w) path = DashboardPage -> AxiosApp.gate w = Authenticated)
        /\ AxiosPages.App (ui w) path <> TransactionsPage
        /\ (forall to, AxiosPages.App (ui w) path <> Redirect to))
  /\ (forall (w : World AxiosApp.Ui),
        AxiosPages.App_unguarded (ui w) "/" = DashboardPage
        /\ AxiosPages.App_unguarded (ui w) "/dashboard" = DashboardPage).
Proof.
  repeat apply conj.
  - intros w path. unfold settle. rewrite TokenApp_gate_truthy.
    rewrite !TokenPages_App_cases.
    repeat case_bool_decide; destruct (truthy (TokenApp.token (ui w))) eqn:Ht;
      repeat split; try done; intros to [= <-]; by rewrite TokenPages_App_cases.
  - intros w path. unfold settle. rewrite PersistApp_gate_truthy.
    rewrite !PersistPages_App_cases.
    repeat case_bool_decide; destruct (truthy (PersistApp.token (ui w))) eqn:Ht;
      repeat split; try done; try (by intros [|]);
      try (intros to [= <-]; by rewrite PersistPages_App_cases).
  - intros w path. rewrite AxiosApp_gate_flag, !AxiosPages_App_cases.
    repeat case_bool_decide; destruct (AxiosApp.isAuthenticated (ui w));
      repeat split; done.
  - done.
Qed.

(** X17: the navigation bar follows the gate: it offers the dashboard link
    and the logout button exactly while the gate is [Authenticated].  In the
    first bundle every link it shows leads to a page of [App].  In
    [unnamed/part_000] the bar of an anonymous client links to "/login",
    which the earlier [App] shows as the login page and the later [App]
    does not match at all. *)
Theorem X17_navbar_links :
  (forall (w : World TokenApp.Ui),
     (NavLink "/dashboard" "Dashboard" ∈ TokenPages.Navbar (ui w)
      <-> TokenApp.gate w = Authenticated)
     /\ (NavButton "Logout" ∈ TokenPages.Navbar (ui w)
         <-> TokenApp.gate w = Authenticated)
     /\ (forall item to,
           item ∈ TokenPages.Navbar (ui w) -> link_target item = Some to ->
           settle (TokenPages.App (ui w)) to ∈ [LoginPage; RegisterPage; DashboardPage]))
  /\ (forall (w : World AxiosApp.Ui),
        (NavLink "/dashboard" "Dashboard" ∈ AxiosPages.Navbar (ui w)
         <-> AxiosApp.gate w = Authenticated)
        /\ (NavButton "Logout" ∈ AxiosPages.Navbar (ui w)
            <-> AxiosApp.gate w = Authenticated)
        /\ (AxiosApp.gate w = Anonymous ->
            NavLink "/login" "Login" ∈ AxiosPages.Navbar (ui w)
            /\ AxiosPages.App (ui w) "/login" = NoMatch
            /\ AxiosPages.App_unguarded (ui w) "/login" = LoginPage)).
Proof.
  split.
  - intros w. rewrite TokenApp_gate_truthy. unfold TokenPages.Navbar.
    destruct (truthy (TokenApp.token (ui w))) eqn:Ht.
    + repeat split; try (intros _; in_list).
      intros item to Hin Hto. unfold settle. rewrite !TokenPages_App_cases, Ht.
      repeat (apply elem_of_cons in Hin as [->|Hin]); simpl in Hto;
        try discriminate; try (by apply elem_of_nil in Hin);
        injection Hto as <-; vm_compute; in_list.
    + repeat split; try (intros Hin; exfalso; not_in_list Hin); try discriminate.
      intros item to Hin Hto. unfold settle. rewrite !TokenPages_App_cases, Ht.
      repeat (apply elem_of_cons in Hin as [->|Hin]); simpl in Hto;
        try discriminate; try (by apply elem_of_nil in Hin);
        injection Hto as <-; vm_compute; in_list.
  - intros w. rewrite gate_two_states, AxiosApp_gate_flag. unfold AxiosPages.Navbar.
    destruct (AxiosApp.isAuthenticated (ui w)) eqn:Ha.
    + repeat split; try (intros _; in_list); try done.
    + repeat split; try (intros Hin; exfalso; not_in_list Hin); try discriminate.
      in_list.
Qed.

(** ** Error messages after a failure *)

(** X18: in the second bundle a failed login, item listing, item creation
    or transaction listing always leaves a non-empty error message to show:
    the server's message when it has one, a fixed text otherwise.  In the
    first bundle only the item listing does; after an answer that is not ok
    the login form, the item form and the transaction list take the
    server's message field as it is, so that an answer without one shows no
    error at all. *)
Theorem X18_failures_show_an_error :
  (forall net w email password,
     fetch_login_fails (net (sent w) (PersistApp.login_request email password)) ->
     truthy (PersistApp.login_error
               (ui (run (PersistApp.Login_handleSubmit email password) net w))) = true)
  /\ (forall net w,
        fetch_login_fails (net (sent w) (PersistApp.items_request (PersistApp.token (ui w)))) ->
        truthy (PersistApp.dashboard_error (ui (run PersistApp.fetchItems net w))) = true)
  /\ (forall net w name description price image,
        fetch_login_fails
          (net (sent w) (PersistApp.add_item_request (getItem "token" (storage w))
                           name description price image)) ->
        truthy (PersistApp.add_item_error
                  (ui (run (PersistApp.AddItem_handleSubmit name description price image)
                           net w))) = true)
  /\ (forall net w,
        fetch_login_fails
          (net (sent w) (PersistApp.transactions_request (PersistApp.token (ui w)))) ->
        truthy (PersistApp.transactions_error (ui (run PersistApp.fetchTransactions net w)))
        = true)
  /\ (forall net w,
        fetch_login_fails (net (sent w) (TokenApp.items_request (TokenApp.token (ui w)))) ->
        truthy (TokenApp.dashboard_error (ui (run TokenApp.fetchItems net w))) = true)
  /\ (forall net w email password r d,
        net (sent w) (TokenApp.login_request email password) = Resolved r ->
        ok r = false -> json r = JsonValue d ->
        TokenApp.login_error (ui (run (TokenApp.Login_handleSubmit email password) net w))
        = message_field d)
  /\ (forall net w name description p image r d,
        p <> 0%Z ->
        net (sent w) (TokenApp.add_item_request (TokenApp.token (ui w))
                        name description p image) = Resolved r ->
        ok r = false -> json r = JsonValue d ->
        TokenApp.add_item_error
          (ui (run (TokenApp.AddItem_handleSubmit name description (Some p) image) net w))
        = message_field d)
  /\ (forall net w r d,
        net (sent w) (TokenApp.transactions_request (TokenApp.token (ui w))) = Resolved r ->
        ok r = false -> json r = JsonValue d ->
        TokenApp.transactions_error (ui (run TokenApp.fetchTransactions net w))
        = message_field d).
Proof.
  assert (Hor : forall v s, s <> "" -> truthy (js_or v (JStr s)) = true).
  { intros v s Hs. unfold js_or. destruct (truthy v) eqn:Hv; [done|].
    by apply truthy_JStr. }
  repeat apply conj.
  - intros net w email password Hfail. unfold fetch_login_fails in Hfail.
    unfold PersistApp.Login_handleSubmit, PersistApp.setAndPersistToken. eff.
    destruct (net _ _) as [|r]; simpl; [done|].
    destruct (json r) as [| |d]; simpl; [done| |];
      destruct Hfail as [-> | [=]]; simpl; [done|by apply Hor].
  - intros net w Hfail. unfold fetch_login_fails in Hfail.
    unfold PersistApp.fetchItems. eff.
    destruct (net _ _) as [|r]; simpl; [done|].
    destruct (json r) as [| |d]; simpl; [done| |];
      destruct Hfail as [-> | [=]]; simpl; [done|by apply Hor].
  - intros net w name description price image Hfail. unfold fetch_login_fails in Hfail.
    unfold PersistApp.AddItem_handleSubmit. eff.
    destruct (net _ _) as [|r]; simpl; [done|].
    destruct (json r) as [| |d]; simpl; [done| |];
      destruct Hfail as [-> | [=]]; simpl; [done|by apply Hor].
  - intros net w Hfail. unfold fetch_login_fails in Hfail.
    unfold PersistApp.fetchTransactions. eff.
    destruct (net _ _) as [|r]; simpl; [done|].
    destruct (json r) as [| |d]; simpl; [done| |];
      destruct Hfail as [-> | [=]]; simpl; [done|by apply Hor].
  - intros net w Hfail. unfold fetch_login_fails in Hfail.
    unfold TokenApp.fetchItems. eff.
    destruct (net _ _) as [|r]; simpl; [done|].
    destruct (json r) as [| |d]; simpl; [done| |];
      destruct Hfail as [-> | [=]]; simpl; [done|by apply Hor].
  - intros net w email password r d Hnet Hok Hjson.
    unfold TokenApp.Login_handleSubmit, TokenApp.login. eff.
    rewrite Hnet. simpl. rewrite Hjson. simpl. by rewrite Hok.
  - intros net w name description p image r d Hp Hnet Hok Hjson.
    unfold TokenApp.AddItem_handleSubmit. eff.
    destruct p as [|p|p]; [done| |];
      rewrite Hnet; simpl; rewrite Hjson; simpl; by rewrite Hok.
  - intros net w r d Hnet Hok Hjson.
    unfold TokenApp.fetchTransactions. eff.
    rewrite Hnet. simpl. rewrite Hjson. simpl. by rewrite Hok.
Qed.

Lemma X18_silent_failure_witness :
  let net : Network := fun _ _ => Resolved (mkResponse 401 (JsonValue (mkJson JUndefined JUndefined []))) in
  TokenApp.login_error
    (ui (run (TokenApp.Login_handleSubmit "alice@example.com" "wrong") net
             (TokenApp.AuthProvider ∅ "/")))
  = JUndefined.
Proof.
  intros net.
  apply (proj1 (proj2 (proj2 (proj2 (proj2 (proj2 X18_failures_show_an_error)))))
           net (TokenApp.AuthProvider ∅ "/") "alice@example.com" "wrong"
           (mkResponse 401 (JsonValue (mkJson JUndefined JUndefined [])))
           (mkJson JUndefined JUndefined []));
    reflexivity.
Defined.

(** ** From the login form to the first protected request *)

(** X19: in the first bundle, a login answered with an ok status and a
    non-empty token leaves the client on the dashboard, which
    [ProtectedRoute] now shows, with that token in the storage; the item
    listing that follows sends exactly one request, which carries
    [Bearer] and that token. *)
Theorem X19_token_login_reaches_the_dashboard :
  forall (net : Network) (w : World TokenApp.Ui) (email password : string)
         (r : Response) (d : Json) (t : string),
    net (sent w) (TokenApp.login_request email password) = Resolved r ->
    ok r = true -> json r = JsonValue d -> token_field d = JStr t -> t <> "" ->
    let w' := run (TokenApp.Login_handleSubmit email password) net w in
    storage w' !! "authToken" = Some t
    /\ TokenPages.App (ui w') (TokenApp.location (ui w')) = DashboardPage
    /\ forall net',
         exists request,
           new_requests TokenApp.fetchItems net' w' = [request]
           /\ method request = GET
           /\ authorization request = Some ("Bearer " +:+ t).
Proof.
  intros net w email password r d t Hnet Hok Hjson Htok Ht w'. subst w'.
  rewrite (TokenApp_login_success _ _ _ _ _ _ Hnet Hok Hjson), Htok. simpl.
  split; [unfold setItem; apply lookup_insert_eq|].
  split.
  - pose proof (proj2 (truthy_JStr t) Ht) as Htruthy. simpl in Htruthy.
    rewrite TokenPages_App_cases. simpl. by rewrite Htruthy.
  - intros net'. eexists. split; [|split].
    + apply (TokenApp_call_requests TokenApp.CallFetchItems).
    + reflexivity.
    + reflexivity.
Qed.

Lemma X19_token_login_witness :
  let net : Network :=
    fun _ _ => Resolved (mkResponse 200 (JsonValue (mkJson (JStr "abc.def") JUndefined []))) in
  let w' := run (TokenApp.Login_handleSubmit "alice@example.com" "correct-horse") net
                (TokenApp.AuthProvider ∅ "/") in
  storage w' !! "authToken" = Some "abc.def"
  /\ TokenPages.App (ui w') (TokenApp.location (ui w')) = DashboardPage
  /\ forall net',
       exists request,
         new_requests TokenApp.fetchItems net' w' = [request]
         /\ method request = GET
         /\ authorization request = Some ("Bearer " +:+ "abc.def").
Proof.
  intros net.
  apply (X19_token_login_reaches_the_dashboard net (TokenApp.AuthProvider ∅ "/")
           "alice@example.com" "correct-horse"
           (mkResponse 200 (JsonValue (mkJson (JStr "abc.def") JUndefined [])))
           (mkJson (JStr "abc.def") JUndefined []) "abc.def");
    first [reflexivity | discriminate].
Defined.
